(** * Telechat training utilities: [deepspeed-telechat/utils/utils.py]

    A shallow embedding of the helper functions of [utils.py] and the
    properties of its checkpoint export, device transfer, seeding,
    reduction and optimizer grouping.

    Conventions of the embedding.
    - A Python [str] is a [string] read as a sequence of code points
      below 256; in that range the class [\d] of [re] is exactly the
      ten characters 0..9.
    - A Python number is a [pynum]: an [int] is a [Z], a [float] is the
      rational it denotes.  The only float constants of the module are
      [1 / 8] and [0.0]; sums and products of integers with multiples
      of 1/8 are exact in binary64 below 2^50, which is the range in
      which the rational reading is the float.
    - A [dict] whose order is observable is an association list with
      Python's insertion discipline ([dict_set]); a [dict] that is only
      looked up by key is a [gmap].
    - Calls into the file system, [torch], [transformers] and
      [deepspeed] are recorded as [event]s of a trace, in program order;
      raised exceptions are a [Raise] result. *)

From Stdlib Require Import QArith Ascii.
From stdpp Require Import gmap strings list fin_maps.

Local Open Scope Z_scope.

(** ** Exceptions and results *)

Inductive exn :=
| ValueError (msg : string)
| RuntimeError (msg : string)
| OtherError (msg : string).

Inductive result (A : Type) :=
| Ok (a : A)
| Raise (e : exn).
Arguments Ok {A} a.
Arguments Raise {A} e.

(** ** Python numbers *)

Inductive pynum :=
| PyInt (z : Z)
| PyFloat (q : Q).

Definition num_val (n : pynum) : Q :=
  match n with
  | PyInt z => inject_Z z
  | PyFloat q => q
  end.

Definition py_mul (a b : pynum) : pynum :=
  match a, b with
  | PyInt x, PyInt y => PyInt (x * y)
  | _, _ => PyFloat (num_val a * num_val b)
  end.

Definition py_add (a b : pynum) : pynum :=
  match a, b with
  | PyInt x, PyInt y => PyInt (x + y)
  | _, _ => PyFloat (num_val a + num_val b)
  end.

Arguments py_mul : simpl never.
Arguments py_add : simpl never.

(** ** Strings: the [in] operator and [os.path.join] *)

(** [s.startswith(p)] *)
Fixpoint startswith (p s : string) : bool :=
  match p, s with
  | EmptyString, _ => true
  | String a p', String b s' => bool_decide (a = b) && startswith p' s'
  | String _ _, EmptyString => false
  end.

(** [needle in hay] on [str]. *)
Fixpoint str_in (needle hay : string) : bool :=
  startswith needle hay ||
  match hay with
  | EmptyString => false
  | String _ rest => str_in needle rest
  end.

Fixpoint endswith_sep (s : string) : bool :=
  match s with
  | EmptyString => false
  | String c EmptyString => bool_decide (c = "/"%char)
  | String _ rest => endswith_sep rest
  end.

(** [os.path.join(a, b)] of [posixpath], for two components. *)
Definition path_join (a b : string) : string :=
  if startswith "/" b then b
  else if bool_decide (a = EmptyString) || endswith_sep a then a +:+ b
  else a +:+ "/" +:+ b.

(** ** [get_dtype_size] *)

Definition newline : ascii := "010"%char.

(** A dtype argument: [torch.bool] itself, or any other object, known
    through its [str()] form. *)
Inductive dtype :=
| torch_bool
| dtype_named (repr : string).

Definition dtype_str (d : dtype) : string :=
  match d with
  | torch_bool => "torch.bool"
  | dtype_named s => s
  end.

Definition is_digit (c : ascii) : bool :=
  (48 <=? Z.of_nat (nat_of_ascii c)) && (Z.of_nat (nat_of_ascii c) <=? 57).

(** The greedy [\d+]: the longest run of digits at the head, and what
    follows it. *)
Fixpoint span_digits (s : list ascii) : list ascii * list ascii :=
  match s with
  | c :: t =>
      if is_digit c
      then let '(ds, rest) := span_digits t in (c :: ds, rest)
      else ([], s)
  | [] => ([], [])
  end.

(** [$] without [re.MULTILINE]: the end of the string, or just before a
    newline that ends the string. *)
Definition at_dollar (rest : list ascii) : bool :=
  match rest with
  | [] => true
  | [c] => bool_decide (c = newline)
  | _ => false
  end.

(** The pattern [[^\d](\d+)$] anchored at the head of [s]; the result is
    group 1.  A shorter run of digits than the greedy one is followed by
    a digit, where [$] cannot hold, so backtracking adds no match. *)
Definition match_here (s : list ascii) : option (list ascii) :=
  match s with
  | c :: t =>
      if is_digit c then None
      else
        let '(ds, rest) := span_digits t in
        match ds with
        | [] => None
        | _ :: _ => if at_dollar rest then Some ds else None
        end
  | [] => None
  end.

(** [re.search]: the match at the leftmost position that has one. *)
Fixpoint re_search (s : list ascii) : option (list ascii) :=
  match match_here s with
  | Some g => Some g
  | None =>
      match s with
      | [] => None
      | _ :: t => re_search t
      end
  end.

Definition digit_val (c : ascii) : Z := Z.of_nat (nat_of_ascii c) - 48.

(** [int(group)] on a run of decimal digits. *)
Definition int_of_digits (ds : list ascii) : Z :=
  fold_left (fun acc c => 10 * acc + digit_val c) ds 0.

Definition invalid_dtype (repr : string) : exn :=
  ValueError ("`dtype` is not a valid dtype: " +:+ repr +:+ ".").

Definition get_dtype_size (d : dtype) : result pynum :=
  match d with
  | torch_bool => Ok (PyFloat (1 # 8))
  | dtype_named repr =>
      match re_search (String.list_ascii_of_string repr) with
      | None => Raise (invalid_dtype repr)
      | Some g => Ok (PyInt (int_of_digits g / 8))
      end
  end.

(** The string form with one final newline, if any, dropped: where [$]
    looks. *)
Fixpoint chomp (s : list ascii) : list ascii :=
  match s with
  | [] => []
  | [c] => if bool_decide (c = newline) then [] else [c]
  | c :: t => c :: chomp t
  end.

Definition ends_in_digit (s : list ascii) : bool :=
  match last s with
  | Some c => is_digit c
  | None => false
  end.

(** Following the spec's words: the bit-width N in which the string
    form of a dtype ends, when it ends in digits. *)
Definition spec_bit_width (d : dtype) : option Z :=
  match (span_digits (rev (String.list_ascii_of_string (dtype_str d)))).1 with
  | [] => None
  | ds => Some (int_of_digits (rev ds))
  end.

(** Following the spec's words: N/8 for an N-bit kind. *)
Definition spec_byte_width (n : Z) : Q := inject_Z n / 8.

(** ** The effect monad: a result and the trace of external calls *)

Record tensor := { t_values : list Z; t_device : string }.

Definition cpu (t : tensor) : tensor :=
  {| t_values := t_values t; t_device := "cpu" |}.

Inductive ZeroParamStatus := AVAILABLE | NOT_AVAILABLE | INFLIGHT.

(** What [deepspeed] attaches to a parameter it manages: [ds_id],
    [ds_status], and the full tensor that gathering its partitions
    reconstructs. *)
Record ds_info := {
  ds_id : nat;
  ds_status : ZeroParamStatus;
  ds_full : tensor }.

Record param := {
  p_data : tensor;            (* the tensor held locally *)
  p_numel : Z;                (* what [numel()] returns *)
  p_dtype : dtype;
  requires_grad : bool;
  p_ds : option ds_info }.    (* [hasattr(p, 'ds_id')] *)

Record network := {
  named_parameters : list (string * param);
  named_buffers : list (string * tensor);
  config : string }.

(** [model.module if hasattr(model, 'module') else model] *)
Inductive model :=
| Bare (net : network)
| Wrapped (module : network).

Definition model_to_save (m : model) : network :=
  match m with
  | Bare net => net
  | Wrapped module => module
  end.

Record tokenizer := { tok_name : string }.

Record args := {
  output_dir : string;
  model_name_or_path : string;
  global_rank : Z;
  zero_stage : Z }.

Record index_dict := {
  weight_map : gmap string string;
  metadata : gmap string pynum }.

Inductive event :=
| Makedirs (path : string)
| TorchSave (obj : gmap string tensor) (path : string)
| ConfigToJsonFile (cfg : string) (path : string)
| TokenizerSavePretrained (tok : tokenizer) (dir : string)
| WriteIndexJson (path : string) (idx : index_dict)
| OsSystem (cmd : string)
| GatheredParameters (params : list param) (enabled : bool).

Definition M (A : Type) : Type := result A * list event.

Definition ret {A} (a : A) : M A := (Ok a, []).

Definition bind {A B} (c : M A) (k : A -> M B) : M B :=
  match c with
  | (Ok a, tr) => let '(r, tr') := k a in (r, tr ++ tr')
  | (Raise e, tr) => (Raise e, tr)
  end.

Definition emit (e : event) : M unit := (Ok tt, [e]).

Definition lift {A} (r : result A) : M A := (r, []).

Definition trace {A} (c : M A) : list event := snd c.

Definition outcome {A} (c : M A) : result A := fst c.

#[global] Instance M_ret : MRet M := @ret.
#[global] Instance M_bind : MBind M := fun A B k c => bind c k.

(** A [for] loop over a list that threads the loop's variables. *)
Fixpoint for_each {A S} (body : S -> A -> M S) (s : S) (l : list A) : M S :=
  match l with
  | [] => ret s
  | x :: rest => s' ← body s x; for_each body s' rest
  end.

(** ** Checkpoint export *)

Definition WEIGHTS_NAME : string := "pytorch_model_00001-of-00001.bin".
Definition CONFIG_NAME : string := "config.json".
Definition INDEX_NAME : string := "pytorch_model.bin.index.json".

(** [model.state_dict()]: parameters and buffers by name, a fresh dict
    at each call. *)
Definition state_dict (net : network) : gmap string tensor :=
  fold_left (fun d '(k, t) => <[k := t]> d)
    (map (fun '(k, p) => (k, p_data p)) (named_parameters net)
       ++ named_buffers net) ∅.

(** [for key in list(save_dict.keys()): if "lora" in key: del save_dict[key]] *)
Definition drop_lora (save_dict : gmap string tensor) : gmap string tensor :=
  fold_left (fun d key => if str_in "lora" key then delete key d else d)
    (map_to_list save_dict).*1 save_dict.

Definition copy_cmd (src pattern dst : string) : string :=
  "cp -r " +:+ src +:+ "/" +:+ pattern +:+ " " +:+ dst.

(** The body shared by the index loops: record the name and add the
    parameter's bytes. *)
Definition index_step (st : gmap string string * pynum) (name : string)
    (p : param) : M (gmap string string * pynum) :=
  let '(wm, total_size) := st in
  let wm := <[name := WEIGHTS_NAME]> wm in
  sz ← lift (get_dtype_size (p_dtype p));
  ret (wm, py_add total_size (py_mul (PyInt (p_numel p)) sz)).

(** [if "lora" not in name: ...] around that body. *)
Definition index_body (st : gmap string string * pynum)
    (item : string * param) : M (gmap string string * pynum) :=
  let '(name, p) := item in
  if negb (str_in "lora" name) then index_step st name p else ret st.

Definition write_index (dir : string) (wm : gmap string string)
    (total_size : pynum) : M unit :=
  emit (WriteIndexJson (path_join dir INDEX_NAME)
          {| weight_map := wm; metadata := {["total_size" := total_size]} |}).

Definition save_hf_format (m : model) (tok : tokenizer) (a : args)
    (sub_folder : string) : M unit :=
  let net := model_to_save m in
  let out := path_join (output_dir a) sub_folder in
  emit (Makedirs out);;
  let output_model_file := path_join out WEIGHTS_NAME in
  let output_config_file := path_join out CONFIG_NAME in
  let save_dict := drop_lora (state_dict net) in
  emit (TorchSave save_dict output_model_file);;
  emit (ConfigToJsonFile (config net) output_config_file);;
  emit (TokenizerSavePretrained tok out);;
  '(wm, total_size) ←
    for_each index_body (∅, PyInt 0) (named_parameters net);
  write_index out wm total_size;;
  emit (OsSystem (copy_cmd (model_name_or_path a) "*telechat*" out));;
  emit (OsSystem (copy_cmd (model_name_or_path a) "generation*" out)).

Definition not_available (st : ZeroParamStatus) : bool :=
  match st with
  | NOT_AVAILABLE => true
  | _ => false
  end.

Definition has_ds_id (p : param) : bool :=
  match p_ds p with
  | Some _ => true
  | None => false
  end.

Definition _z3_params_to_fetch (param_list : list param) : list param :=
  List.filter
    (fun p => match p_ds p with
              | Some ds => not_available (ds_status ds)
              | None => false
              end)
    param_list.

(** [v.data] inside [with GatheredParameters(fetch)]: the full tensor
    when [v] was fetched, the local one otherwise. *)
Definition data_within (fetch : list param) (v : param) : tensor :=
  match fetch, p_ds v with
  | _ :: _, Some ds => ds_full ds
  | _, _ => p_data v
  end.

Definition gather_step (a : args)
    (st : gmap string tensor * gmap string string * pynum)
    (k : string) (v : param) :
    M (gmap string tensor * gmap string string * pynum) :=
  let '(output_state_dict, wm, total_size) := st in
  v_p ←
    (if has_ds_id v then
       let fetch := _z3_params_to_fetch [v] in
       emit (GatheredParameters fetch (bool_decide (zero_stage a = 3)));;
       ret (cpu (data_within fetch v))
     else ret (cpu (p_data v)));
  if bool_decide (global_rank a = 0) && negb (str_in "lora" k) then
    let output_state_dict := <[k := v_p]> output_state_dict in
    '(wm, total_size) ← index_step (wm, total_size) k v;
    ret (output_state_dict, wm, total_size)
  else ret st.

Definition save_zero_three_model (m : model) (tok : tokenizer) (a : args)
    (sub_folder : string) : M unit :=
  let zero_stage_3 := bool_decide (zero_stage a = 3) in
  emit (Makedirs (output_dir a));;
  let out := path_join (output_dir a) sub_folder in
  emit (Makedirs out);;
  let output_model_file := path_join out WEIGHTS_NAME in
  let net := model_to_save m in
  '(wm, total_size) ←
    (if negb zero_stage_3 then
       if bool_decide (global_rank a = 0) then
         emit (TorchSave (state_dict net) output_model_file);;
         for_each index_body (∅, PyInt 0) (named_parameters net)
       else ret (∅, PyInt 0)
     else
       '(output_state_dict, wm, total_size) ←
         for_each (fun st '(k, v) => gather_step a st k v)
           (∅, ∅, PyInt 0) (named_parameters net);
       (if bool_decide (global_rank a = 0) then
          emit (TorchSave output_state_dict output_model_file)
        else ret tt);;
       ret (wm, total_size));
  if bool_decide (global_rank a = 0) then
    write_index out wm total_size;;
    emit (TokenizerSavePretrained tok out);;
    emit (OsSystem (copy_cmd (model_name_or_path a) "*telechat*" out));;
    emit (OsSystem (copy_cmd (model_name_or_path a) "generation*" out))
  else ret tt.

(** ** [to_device] *)

Section DeviceTransfer.
Context {K V D : Type} `{EqDecision K}.

(** [v.to(device)]: the moved value, or the exception it raises
    (an [AttributeError] when [v] has no [to], or whatever the move
    raises). *)
Variable to : V -> D -> result V.

(** [d[k] = v] on a dict kept in insertion order. *)
Fixpoint dict_set (k : K) (v : V) (d : list (K * V)) : list (K * V) :=
  match d with
  | [] => [(k, v)]
  | (k', v') :: rest =>
      if decide (k = k') then (k', v) :: rest
      else (k', v') :: dict_set k v rest
  end.

(** The loop of [to_device] from the items still to visit and the
    [output] built so far; the bare [except:] catches whatever [to]
    raises. *)
Fixpoint to_device_loop (items : list (K * V)) (device : D)
    (output : list (K * V)) : result (list (K * V)) :=
  match items with
  | [] => Ok output
  | (k, v) :: rest =>
      match to v device with
      | Ok moved => to_device_loop rest device (dict_set k moved output)
      | Raise _ => to_device_loop rest device (dict_set k v output)
      end
  end.

Definition to_device (batch : list (K * V)) (device : D) :
    result (list (K * V)) :=
  to_device_loop batch device [].

(** What the claim says each entry becomes. *)
Definition moved_or_kept (device : D) (kv : K * V) : K * V :=
  match to kv.2 device with
  | Ok moved => (kv.1, moved)
  | Raise _ => kv
  end.
End DeviceTransfer.

(** ** [set_random_seed] *)

Section Seeding.
(** The state of all generators of the process, and the five seeding
    calls as state transformers. *)
Context {World : Type}.
Variables set_seed random_seed np_random_seed torch_manual_seed
  torch_cuda_manual_seed_all : Z -> World -> World.

Definition set_random_seed (seed : option Z) (w : World) : World :=
  match seed with
  | Some s =>
      let w := set_seed s w in
      let w := random_seed s w in
      let w := np_random_seed s w in
      let w := torch_manual_seed s w in
      torch_cuda_manual_seed_all s w
  | None => w
  end.
End Seeding.

(** ** [get_all_reduce_mean] *)

Section AllReduce.
(** Tensor values with the sum of the workers' contributions (in rank
    order) and the division by an integer. *)
Context {T : Type}.
Variable tsum : list T -> T.
Variable tdiv : T -> Z -> T.

(** The process group as seen from one worker: the contributions of
    the workers of lower and of higher rank. *)
Record process_group := {
  lower_ranks : list T;
  higher_ranks : list T }.

Definition no_process_group : exn :=
  RuntimeError "Default process group has not been initialized".

Definition get_world_size (dist : option process_group) : result Z :=
  match dist with
  | None => Raise no_process_group
  | Some g =>
      Ok (Z.of_nat (length (lower_ranks g) + 1 + length (higher_ranks g)))
  end.

(** Tensor objects live in a store, by identity. *)
Definition all_reduce (dist : option process_group) (tensor : nat)
    (store : gmap nat T) : result (gmap nat T) :=
  match dist with
  | None => Raise no_process_group
  | Some g =>
      match store !! tensor with
      | None => Raise (OtherError "no such tensor")
      | Some v =>
          Ok (<[tensor := tsum (lower_ranks g ++ v :: higher_ranks g)]> store)
      end
  end.

(** [tensor / n] allocates its result. *)
Definition true_divide (tensor : nat) (n : Z) (store : gmap nat T) :
    result (nat * gmap nat T) :=
  match store !! tensor with
  | None => Raise (OtherError "no such tensor")
  | Some v =>
      let r := fresh (dom store) in
      Ok (r, <[r := tdiv v n]> store)
  end.

Definition get_all_reduce_mean (dist : option process_group) (tensor : nat)
    (store : gmap nat T) : result (nat * gmap nat T) :=
  match all_reduce dist tensor store with
  | Raise e => Raise e
  | Ok store =>
      match get_world_size dist with
      | Raise e => Raise e
      | Ok n => true_divide tensor n store
      end
  end.
End AllReduce.

(** ** [get_optimizer_grouped_parameters] *)

Record param_group := {
  params : list param;
  weight_decay : pynum }.

Definition default_no_decay_name_list : list string :=
  ["bias"; "LayerNorm.weight"].

(** [any(nd in n for nd in no_decay_name_list)] *)
Definition any_in (no_decay_name_list : list string) (n : string) : bool :=
  existsb (fun nd => str_in nd n) no_decay_name_list.

Definition get_optimizer_grouped_parameters (net : network)
    (wd : pynum) (no_decay_name_list : list string) : list param_group :=
  [ {| params :=
         map snd
           (List.filter
              (fun '(n, p) =>
                 negb (any_in no_decay_name_list n) && requires_grad p)
              (named_parameters net));
       weight_decay := wd |};
    {| params :=
         map snd
           (List.filter
              (fun '(n, p) => any_in no_decay_name_list n && requires_grad p)
              (named_parameters net));
       weight_decay := PyFloat 0 |} ].

(** ** Observations on a run, and the quantities the claims speak of *)

Definition written_indexes (tr : list event) : list index_dict :=
  flat_map (fun e => match e with WriteIndexJson _ idx => [idx] | _ => [] end) tr.

Definition saved_dicts (tr : list event) : list (gmap string tensor) :=
  flat_map (fun e => match e with TorchSave d _ => [d] | _ => [] end) tr.

Definition is_gather (e : event) : bool :=
  match e with GatheredParameters _ _ => true | _ => false end.

Definition is_config_write (e : event) : bool :=
  match e with ConfigToJsonFile _ _ => true | _ => false end.

(** The kind of an external call, without its arguments. *)
Inductive call :=
| makedirs | torch_save | config_to_json_file | tokenizer_save_pretrained
| write_index_json | os_system | gathered_parameters.

Definition call_of (e : event) : call :=
  match e with
  | Makedirs _ => makedirs
  | TorchSave _ _ => torch_save
  | ConfigToJsonFile _ _ => config_to_json_file
  | TokenizerSavePretrained _ _ => tokenizer_save_pretrained
  | WriteIndexJson _ _ => write_index_json
  | OsSystem _ => os_system
  | GatheredParameters _ _ => gathered_parameters
  end.

(** The calls that touch the file system: all but the gather. *)
Definition fs_write (e : event) : bool := negb (is_gather e).

(** The byte-width the export charges for a dtype. *)
Definition byte_width (d : dtype) : Q :=
  match get_dtype_size d with
  | Ok n => num_val n
  | Raise _ => 0
  end.

Definition is_sized (p : param) : bool :=
  match get_dtype_size (p_dtype p) with
  | Ok _ => true
  | Raise _ => false
  end.

Definition param_bytes (p : param) : Q :=
  inject_Z (p_numel p) * byte_width (p_dtype p).

(** The sum over the parameters of element count times byte-width. *)
Definition sum_bytes (l : list (string * param)) : Q :=
  fold_right (fun item acc => param_bytes item.2 + acc)%Q 0%Q l.

Definition is_lora (name : string) : bool := str_in "lora" name.

(** The parameters an export keeps. *)
Definition retained (l : list (string * param)) : list (string * param) :=
  List.filter (fun item => negb (is_lora item.1)) l.

Definition total_size_is (total : Q) (idx : index_dict) : Prop :=
  exists t, metadata idx !! "total_size" = Some t /\ (num_val t == total)%Q.

(** One gather per parameter that carries a [ds_id], in the order of
    [named_parameters]. *)
Definition gather_events (enabled : bool) (l : list (string * param)) :
    list event :=
  flat_map
    (fun item =>
       if has_ds_id item.2
       then [GatheredParameters (_z3_params_to_fetch [item.2]) enabled]
       else [])
    l.

(** [v_p] of the gather loop: the host copy of a parameter. *)
Definition host_copy (v : param) : tensor :=
  if has_ds_id v then cpu (data_within (_z3_params_to_fetch [v]) v)
  else cpu (p_data v).

(** The calls of a run, by phase. *)

Definition hf_prefix (m : model) (tok : tokenizer) (a : args)
    (sub_folder : string) : list event :=
  let net := model_to_save m in
  let out := path_join (output_dir a) sub_folder in
  [Makedirs out;
   TorchSave (drop_lora (state_dict net)) (path_join out WEIGHTS_NAME);
   ConfigToJsonFile (config net) (path_join out CONFIG_NAME);
   TokenizerSavePretrained tok out].

Definition index_event (out : string) (wm : gmap string string) (t : pynum) :
    event :=
  WriteIndexJson (path_join out INDEX_NAME)
    {| weight_map := wm; metadata := {["total_size" := t]} |}.

Definition copies (a : args) (out : string) : list event :=
  [OsSystem (copy_cmd (model_name_or_path a) "*telechat*" out);
   OsSystem (copy_cmd (model_name_or_path a) "generation*" out)].

Definition z3_dirs (a : args) (sub_folder : string) : list event :=
  [Makedirs (output_dir a); Makedirs (path_join (output_dir a) sub_folder)].

(** ** Sample inputs *)

Definition sample_param (numel : Z) (dt : dtype) (ds : option ds_info) : param :=
  {| p_data := {| t_values := [numel]; t_device := "cuda:0" |};
     p_numel := numel; p_dtype := dt; requires_grad := true; p_ds := ds |}.

Definition sharded (id : nat) : option ds_info :=
  Some {| ds_id := id; ds_status := NOT_AVAILABLE;
          ds_full := {| t_values := [1; 2]; t_device := "cuda:0" |} |}.

Definition float16 : dtype := dtype_named "torch.float16".
Definition float32 : dtype := dtype_named "torch.float32".
Definition float8_e4m3fn : dtype := dtype_named "torch.float8_e4m3fn".

(** A model with a LoRA adapter weight. *)
Definition lora_net : network :=
  {| named_parameters :=
       [("h.0.weight", sample_param 6 float16 None);
        ("h.0.lora_A.weight", sample_param 4 float32 None)];
     named_buffers := [];
     config := "{}" |}.

(** A model without adapter weights, with a boolean parameter. *)
Definition plain_net : network :=
  {| named_parameters :=
       [("h.0.weight", sample_param 6 float16 None);
        ("h.0.mask", sample_param 12 torch_bool None);
        ("h.0.bias", sample_param 2 float32 None)];
     named_buffers := [];
     config := "{}" |}.

(** A ZeRO-3 model: two partitioned parameters, one adapter, one local. *)
Definition sharded_net : network :=
  {| named_parameters :=
       [("h.0.weight", sample_param 6 float16 (sharded 0));
        ("h.0.lora_A.weight", sample_param 4 float32 (sharded 1));
        ("h.0.bias", sample_param 2 float32 None);
        ("h.1.weight", sample_param 6 float16 (sharded 2))];
     named_buffers := [];
     config := "{}" |}.

(** A ZeRO-3 model whose first parameter has a dtype whose name does
    not end in digits. *)
Definition fp8_net : network :=
  {| named_parameters :=
       [("h.0.weight", sample_param 6 float8_e4m3fn (sharded 0));
        ("h.1.weight", sample_param 6 float16 (sharded 1))];
     named_buffers := [];
     config := "{}" |}.

Definition sample_tokenizer : tokenizer := {| tok_name := "tokenizer" |}.

Definition sample_args (rank stage : Z) : args :=
  {| output_dir := "out"; model_name_or_path := "base";
     global_rank := rank; zero_stage := stage |}.

(** Batch values for [to_device]: tensors move, other values have no
    [to] and raise. *)
Inductive batch_value :=
| BatchTensor (payload : list Z) (device : string)
| BatchOther (payload : Z).

Definition batch_value_to (v : batch_value) (device : string) :
    result batch_value :=
  match v with
  | BatchTensor payload _ => Ok (BatchTensor payload device)
  | BatchOther _ => Raise (OtherError "AttributeError")
  end.

Definition sample_batch : list (string * batch_value) :=
  [("input_ids", BatchTensor [1; 2; 3] "cpu"); ("length", BatchOther 3)].

(** Integer tensors of one element for [get_all_reduce_mean]. *)
Definition sum_Z (vs : list Z) : Z := fold_right Z.add 0 vs.

Definition sample_group : process_group :=
  {| lower_ranks := [1]; higher_ranks := [3] |}.

(** ** Further observations *)

Definition is_py_int (n : pynum) : bool :=
  match n with PyInt _ => true | PyFloat _ => false end.

Definition is_torch_bool (d : dtype) : bool :=
  match d with torch_bool => true | dtype_named _ => false end.

(** The [output_state_dict] rank 0 accumulates over the gather loop. *)
Definition collected (l : list (string * param)) (osd : gmap string tensor) :
    gmap string tensor :=
  fold_left
    (fun d item => if is_lora item.1 then d else <[item.1 := host_copy item.2]> d)
    l osd.

Definition trainable (l : list (string * param)) : list param :=
  map snd (List.filter (fun item => requires_grad item.2) l).

(** ** Byte-widths, in the specification's words and as the code charges them *)

(** The number in which the string form of a dtype ends, one final
    newline apart. *)
Definition trailing_bits (repr : string) : option Z :=
  match (span_digits (rev (chomp (String.list_ascii_of_string repr)))).1 with
  | [] => None
  | ds => Some (int_of_digits (rev ds))
  end.

(** Following the spec's words: 1/8 byte for the boolean kind, N/8 for
    an N-bit kind. *)
Definition spec_dtype_width (d : dtype) : Q :=
  match d with
  | torch_bool => 1 # 8
  | dtype_named repr =>
      match trailing_bits repr with
      | Some n => spec_byte_width n
      | None => 0
      end
  end.

(** 1/8 byte for the boolean kind, the whole bytes floor(N/8) of an
    N-bit kind. *)
Definition floor_dtype_width (d : dtype) : Q :=
  match d with
  | torch_bool => 1 # 8
  | dtype_named repr =>
      match trailing_bits repr with
      | Some n => inject_Z (n / 8)
      | None => 0
      end
  end.

(** The bit-width of the dtype, if it has one, is a multiple of 8. *)
Definition byte_aligned (d : dtype) : bool :=
  match d with
  | torch_bool => true
  | dtype_named repr =>
      match trailing_bits repr with
      | Some n => n mod 8 =? 0
      | None => true
      end
  end.

(** The sum over the parameters of element count times a byte-width. *)
Definition sum_over (width : dtype -> Q) (l : list (string * param)) : Q :=
  fold_right
    (fun item acc => inject_Z (p_numel item.2) * width (p_dtype item.2) + acc)%Q
    0%Q l.

(** A model with one 4-bit parameter of eight elements. *)
Definition uint4_net : network :=
  {| named_parameters :=
       [("h.0.weight", sample_param 8 (dtype_named "torch.uint4") None)];
     named_buffers := [];
     config := "{}" |}.

(** * Properties *)

(** ** Substring test *)

Lemma append_nil_l (s : string) : EmptyString +:+ s = s.
Proof. reflexivity. Qed.

Lemma append_cons_l (c : ascii) (a b : string) :
  String c a +:+ b = String c (a +:+ b).
Proof. reflexivity. Qed.

Lemma startswith_iff_app (p s : string) :
  startswith p s = true <-> exists b, s = p +:+ b.
Proof.
  revert s. induction p as [|a p IH]; intros s; simpl.
  - split; [intros _; exists s; reflexivity | reflexivity].
  - destruct s as [|c s].
    + split; [done | intros [b Hb]; rewrite append_cons_l in Hb; discriminate].
    + rewrite andb_true_iff, bool_decide_eq_true, IH. split.
      * intros [-> [b ->]]. by exists b.
      * intros [b Hb]. rewrite append_cons_l in Hb.
        injection Hb as -> ->. split; [done | by exists b].
Qed.

(** [str_in needle hay] holds exactly when [needle] occurs in [hay]. *)
Lemma str_in_iff_occurs (needle hay : string) :
  str_in needle hay = true <-> exists a b, hay = a +:+ needle +:+ b.
Proof.
  induction hay as [|c hay IH]; simpl.
  - rewrite orb_false_r, startswith_iff_app. split.
    + intros [b Hb]. by exists EmptyString, b.
    + intros [a [b Hab]]. exists b.
      destruct a; [done | rewrite append_cons_l in Hab; discriminate].
  - rewrite orb_true_iff, startswith_iff_app, IH. split.
    + intros [[b Hb] | [a [b Hab]]].
      * by exists EmptyString, b.
      * exists (String c a), b. by rewrite append_cons_l, Hab.
    + intros [a [b Hab]]. destruct a as [|c' a].
      * left. by exists b.
      * right. exists a, b. rewrite append_cons_l in Hab. congruence.
Qed.

(** ** The regular expression of [get_dtype_size] *)

Lemma is_digit_newline : is_digit newline = false.
Proof. reflexivity. Qed.

Lemma span_digits_run (ds tail : list ascii) :
  Forall (fun c => is_digit c = true) ds ->
  (match tail with [] => True | c :: _ => is_digit c = false end) ->
  span_digits (ds ++ tail) = (ds, tail).
Proof.
  intros Hds Htail. induction Hds as [|c ds Hc _ IH]; simpl.
  - destruct tail as [|c t]; simpl; [done | by rewrite Htail].
  - by rewrite Hc, IH.
Qed.

Lemma span_digits_split (s : list ascii) :
  s = (span_digits s).1 ++ (span_digits s).2 /\
  Forall (fun c => is_digit c = true) (span_digits s).1 /\
  match (span_digits s).2 with [] => True | c :: _ => is_digit c = false end.
Proof.
  induction s as [|c s (IH1 & IH2 & IH3)]; simpl; [done |].
  destruct (is_digit c) eqn:Hc.
  - destruct (span_digits s) as [ds rest]; simpl in *.
    split_and!; [by f_equal | by constructor | done].
  - simpl. by rewrite Hc.
Qed.

(** A match at the head has the shape the pattern describes. *)
Lemma match_here_inv (s g : list ascii) :
  match_here s = Some g ->
  exists c tail,
    s = c :: g ++ tail /\ is_digit c = false /\ g <> [] /\
    Forall (fun c => is_digit c = true) g /\ (tail = [] \/ tail = [newline]).
Proof.
  destruct s as [|c t]; simpl; [done |].
  destruct (is_digit c) eqn:Hc; [done |].
  destruct (span_digits_split t) as (Ht & Hds & _).
  destruct (span_digits t) as [ds rest]; simpl in *.
  destruct ds as [|d ds]; [done |].
  destruct (at_dollar rest) eqn:Hd; [|done].
  intros [= <-]. exists c, rest. split_and!; try done.
  - by rewrite Ht.
  - destruct rest as [|r [|r' rest]]; simpl in Hd; [by left | | done].
    right. apply bool_decide_eq_true in Hd. by subst.
Qed.

Lemma re_search_inv (s g : list ascii) :
  re_search s = Some g ->
  exists pre c tail,
    s = pre ++ c :: g ++ tail /\ is_digit c = false /\ g <> [] /\
    Forall (fun c => is_digit c = true) g /\ (tail = [] \/ tail = [newline]).
Proof.
  induction s as [|x s IH].
  - simpl. done.
  - cbn [re_search]. destruct (match_here (x :: s)) as [g'|] eqn:Hm.
    + intros [= ->]. apply match_here_inv in Hm as (c & tail & ? & ?).
      by exists [], c, tail.
    + intros Hs. destruct (IH Hs) as (pre & c & tail & -> & ?).
      by exists (x :: pre), c, tail.
Qed.

(** No match starts before the last non-digit that precedes the final
    run of digits. *)
Lemma match_here_early (x : ascii) (pre : list ascii) (c : ascii)
    (ds tail : list ascii) :
  is_digit c = false -> ds <> [] ->
  match_here (x :: pre ++ c :: ds ++ tail) = None.
Proof.
  intros Hc Hds. simpl. destruct (is_digit x); [done |].
  destruct (span_digits_split (pre ++ c :: ds ++ tail)) as (Hsplit & Hrun & _).
  destruct (span_digits (pre ++ c :: ds ++ tail)) as [run rest]; simpl in *.
  destruct run as [|r run]; [done |].
  destruct (at_dollar rest) eqn:Hd; [|done]. exfalso.
  (* [c] is not in the run, so [rest] holds [c] and a digit after it *)
  assert (exists k, rest = k ++ c :: ds ++ tail) as [k ->].
  { clear Hd. revert Hsplit Hrun. generalize (r :: run). clear r run.
    intros run. revert pre. induction run as [|y run IH]; intros pre Hsplit Hrun.
    - simpl in Hsplit. by exists pre.
    - destruct pre as [|p pre]; simpl in Hsplit.
      + injection Hsplit as -> _. inversion Hrun; congruence.
      + injection Hsplit as -> Hsplit. inversion Hrun; subst.
        by apply (IH pre). }
  destruct ds as [|d ds]; [done |].
  destruct k as [|k1 [|k2 k]]; simpl in Hd; done.
Qed.

Lemma re_search_shape (pre : list ascii) (c : ascii) (ds tail : list ascii) :
  is_digit c = false -> ds <> [] ->
  Forall (fun c => is_digit c = true) ds ->
  tail = [] \/ tail = [newline] ->
  re_search (pre ++ c :: ds ++ tail) = Some ds.
Proof.
  intros Hc Hne Hds Htail. induction pre as [|x pre IH].
  - cbn [app re_search]. 
    assert (match_here (c :: ds ++ tail) = Some ds) as ->; [|done].
    simpl. rewrite Hc, span_digits_run; [| done |].
    + destruct ds; [done |]. destruct Htail as [-> | ->]; done.
    + destruct Htail as [-> | ->]; done.
  - cbn [app re_search]. by rewrite match_here_early.
Qed.

Ltac reassoc :=
  repeat (rewrite <- app_assoc; simpl); reflexivity.

Lemma chomp_snoc (s : list ascii) (c : ascii) :
  chomp (s ++ [c]) = if bool_decide (c = newline) then s else s ++ [c].
Proof.
  induction s as [|x s IH]; simpl; [by case_bool_decide |].
  rewrite IH. destruct (s ++ [c]) eqn:Hs.
  - by destruct s.
  - by case_bool_decide.
Qed.

Lemma digit_not_newline (c : ascii) : is_digit c = true -> c <> newline.
Proof. intros Hc ->. by rewrite is_digit_newline in Hc. Qed.

(** The text [$] sees, for a string that the pattern matches. *)
Lemma chomp_matched (pre : list ascii) (c : ascii) (g tail : list ascii) :
  g <> [] -> Forall (fun c => is_digit c = true) g ->
  tail = [] \/ tail = [newline] ->
  chomp (pre ++ c :: g ++ tail) = pre ++ c :: g.
Proof.
  intros Hne Hg Htail.
  destruct (exists_last Hne) as (g' & d & ->).
  assert (is_digit d = true) as Hd.
  { rewrite Forall_app, Forall_singleton in Hg. tauto. }
  destruct Htail as [-> | ->].
  - rewrite app_nil_r.
    replace (pre ++ c :: g' ++ [d]) with ((pre ++ c :: g') ++ [d])
      by reassoc.
    rewrite chomp_snoc, bool_decide_eq_false_2; [done |].
    by apply digit_not_newline.
  - replace (pre ++ c :: (g' ++ [d]) ++ [newline])
      with ((pre ++ c :: g' ++ [d]) ++ [newline])
      by reassoc.
    by rewrite chomp_snoc, bool_decide_eq_true_2.
Qed.

Lemma re_search_none_no_digit (s : list ascii) :
  ends_in_digit (chomp s) = false -> re_search s = None.
Proof.
  intros Hend. destruct (re_search s) as [g|] eqn:Hs; [|done].
  apply re_search_inv in Hs as (pre & c & tail & -> & _ & Hne & Hg & Htail).
  rewrite chomp_matched in Hend by done.
  destruct (exists_last Hne) as (g' & d & ->).
  unfold ends_in_digit in Hend.
  replace (pre ++ c :: g' ++ [d]) with ((pre ++ c :: g') ++ [d]) in Hend
    by by rewrite <- app_assoc.
  rewrite last_snoc in Hend.
  rewrite Forall_app, Forall_singleton in Hg. destruct Hg as [_ Hd].
  congruence.
Qed.

Lemma re_search_none_all_digits (s : list ascii) :
  forallb is_digit (chomp s) = true -> re_search s = None.
Proof.
  intros Hall. destruct (re_search s) as [g|] eqn:Hs; [|done].
  apply re_search_inv in Hs as (pre & c & tail & -> & Hc & Hne & Hg & Htail).
  rewrite chomp_matched in Hall by done.
  rewrite forallb_app in Hall. simpl in Hall. rewrite Hc in Hall.
  by rewrite andb_false_r in Hall.
Qed.

(** ** [get_dtype_size] *)

Example get_dtype_size_float32 :
  get_dtype_size (dtype_named "torch.float32") = Ok (PyInt 4).
Proof. reflexivity. Qed.

Example get_dtype_size_bfloat16 :
  get_dtype_size (dtype_named "torch.bfloat16") = Ok (PyInt 2).
Proof. reflexivity. Qed.

Example get_dtype_size_complex128 :
  get_dtype_size (dtype_named "torch.complex128") = Ok (PyInt 16).
Proof. reflexivity. Qed.

Example get_dtype_size_float8_e5m2 :
  get_dtype_size (dtype_named "torch.float8_e5m2") = Ok (PyInt 0).
Proof. reflexivity. Qed.

Example get_dtype_size_float8_e4m3fn :
  get_dtype_size (dtype_named "torch.float8_e4m3fn") =
  Raise (invalid_dtype "torch.float8_e4m3fn").
Proof. reflexivity. Qed.

(** A string of digits only ends in a number, yet nothing precedes the
    digits for [[^\d]] to match. *)
Example get_dtype_size_only_digits :
  spec_bit_width (dtype_named "32") = Some 32 /\
  get_dtype_size (dtype_named "32") = Raise (invalid_dtype "32").
Proof. split; reflexivity. Qed.

(** [$] also holds before a final newline. *)
Example get_dtype_size_final_newline :
  spec_bit_width (dtype_named (String "x" (String "8" (String newline ""))))
    = None /\
  get_dtype_size (dtype_named (String "x" (String "8" (String newline ""))))
    = Ok (PyInt 1).
Proof. split; reflexivity. Qed.

(** C6, as stated, fails: the string form of a 4-bit kind ends in the
    bit-width 4, and [get_dtype_size] returns the integer 0, not 4/8. *)
Lemma get_dtype_size_sub_byte_floors :
  spec_bit_width (dtype_named "torch.uint4") = Some 4 /\
  get_dtype_size (dtype_named "torch.uint4") = Ok (PyInt 0) /\
  ~ (num_val (PyInt 0) == spec_byte_width 4)%Q.
Proof. split_and!; [reflexivity | reflexivity | by intros H]. Qed.

(** C6 (amended).  [get_dtype_size] returns the float 1/8 for
    [torch.bool].  For another dtype whose string form is some text, a
    character that is not a digit, then a non-empty run of digits
    reading N, optionally followed by one final newline, it returns the
    integer floor(N / 8).  In the remaining cases -- the string form,
    one final newline apart, does not end in a digit, or is made of
    digits only -- it raises [ValueError]. *)
Theorem get_dtype_size_cases :
  get_dtype_size torch_bool = Ok (PyFloat (1 # 8)) /\
  (forall (repr : string) (pre : list ascii) (c : ascii) (ds tail : list ascii),
      String.list_ascii_of_string repr = pre ++ c :: ds ++ tail ->
      is_digit c = false ->
      ds <> [] ->
      Forall (fun c => is_digit c = true) ds ->
      tail = [] \/ tail = [newline] ->
      get_dtype_size (dtype_named repr) = Ok (PyInt (int_of_digits ds / 8))) /\
  (forall repr : string,
      ends_in_digit (chomp (String.list_ascii_of_string repr)) = false \/
      forallb is_digit (chomp (String.list_ascii_of_string repr)) = true ->
      get_dtype_size (dtype_named repr) = Raise (invalid_dtype repr)).
Proof.
  split_and!.
  - reflexivity.
  - intros repr pre c ds tail Hrepr Hc Hne Hds Htail. unfold get_dtype_size.
    by rewrite Hrepr, re_search_shape.
  - intros repr [Hend | Hall]; unfold get_dtype_size.
    + by rewrite re_search_none_no_digit.
    + by rewrite re_search_none_all_digits.
Qed.

Lemma get_dtype_size_cases_witness :
  get_dtype_size (dtype_named "torch.float32") = Ok (PyInt (32 / 8)) /\
  get_dtype_size (dtype_named "torch.float16") = Ok (PyInt (16 / 8)) /\
  get_dtype_size (dtype_named "customtype") = Raise (invalid_dtype "customtype").
Proof.
  destruct get_dtype_size_cases as (_ & Hnum & Hraise). split_and!.
  - apply (Hnum "torch.float32"
             (String.list_ascii_of_string "torch.floa") "t"%char
             ["3"; "2"]%char []);
      [reflexivity | reflexivity | discriminate | | by left].
    repeat constructor.
  - apply (Hnum "torch.float16"
             (String.list_ascii_of_string "torch.floa") "t"%char
             ["1"; "6"]%char []);
      [reflexivity | reflexivity | discriminate | | by left].
    repeat constructor.
  - apply Hraise. left. reflexivity.
Defined.

(** ** Python numbers *)

Lemma num_val_add (a b : pynum) : (num_val (py_add a b) == num_val a + num_val b)%Q.
Proof.
  destruct a, b; unfold py_add; cbn [num_val]; try reflexivity;
    try by rewrite inject_Z_plus.
Qed.

Lemma num_val_mul (a b : pynum) : (num_val (py_mul a b) == num_val a * num_val b)%Q.
Proof.
  destruct a, b; unfold py_mul; cbn [num_val]; try reflexivity;
    try by rewrite inject_Z_mult.
Qed.

(** ** The loops of the export *)

Ltac run_monad :=
  unfold mbind, M_bind, bind, mret, M_ret, ret, emit, lift; simpl.

Lemma index_body_lora (st : gmap string string * pynum) (name : string)
    (p : param) :
  is_lora name = true -> index_body st (name, p) = (Ok st, []).
Proof. unfold index_body, is_lora. by intros ->. Qed.

Lemma index_body_kept (wm : gmap string string) (t : pynum) (name : string)
    (p : param) :
  is_lora name = false ->
  index_body (wm, t) (name, p) =
  match get_dtype_size (p_dtype p) with
  | Ok sz =>
      (Ok (<[name := WEIGHTS_NAME]> wm, py_add t (py_mul (PyInt (p_numel p)) sz)),
       [])
  | Raise e => (Raise e, [])
  end.
Proof.
  unfold index_body, is_lora, index_step. intros ->. run_monad.
  by destruct (get_dtype_size (p_dtype p)).
Qed.

(** The index loop makes no external call. *)
Lemma for_each_index_pure (l : list (string * param))
    (st : gmap string string * pynum) :
  for_each index_body st l = (outcome (for_each index_body st l), []).
Proof.
  revert st. induction l as [|[name p] l IH]; intros [wm t]; [done |].
  cbn [for_each]. destruct (is_lora name) eqn:Hl.
  - rewrite index_body_lora by done. run_monad. rewrite IH.
    by destruct (outcome _).
  - rewrite index_body_kept by done.
    destruct (get_dtype_size (p_dtype p)); run_monad; [|done].
    rewrite IH. by destruct (outcome _).
Qed.

(** When the index loop completes, the total has grown by the bytes of
    the retained parameters and the map holds exactly their names more. *)
Lemma index_loop_ok (l : list (string * param)) :
  forall (wm wm' : gmap string string) (t t' : pynum),
    outcome (for_each index_body (wm, t) l) = Ok (wm', t') ->
    (num_val t' == num_val t + sum_bytes (retained l))%Q /\
    (forall k, wm' !! k =
               if bool_decide (k ∈ map fst (retained l))
               then Some WEIGHTS_NAME else wm !! k).
Proof.
  induction l as [|[name p] l IH]; intros wm wm' t t'.
  - simpl. intros [= <- <-]. split; [ring | done].
  - cbn [for_each retained List.filter fst]. destruct (is_lora name) eqn:Hl.
    + rewrite index_body_lora by done. run_monad.
      rewrite for_each_index_pure. destruct (outcome _) as [[wm1 t1]|e] eqn:Hr;
        simpl; [|done].
      intros [= <- <-]. by apply IH.
    + rewrite index_body_kept by done.
      destruct (get_dtype_size (p_dtype p)) as [sz|e] eqn:Hsz; run_monad; [|done].
      rewrite for_each_index_pure. destruct (outcome _) as [[wm1 t1]|e] eqn:Hr;
        simpl; [|done].
      intros [= <- <-]. apply IH in Hr as (Hsum & Hmap). split.
      * fold (retained l). rewrite Hsum, num_val_add, num_val_mul.
        unfold param_bytes, byte_width. simpl. rewrite Hsz. ring.
      * intros k. rewrite Hmap. fold (retained l).
        destruct (decide (k = name)) as [-> | Hne].
        -- rewrite lookup_insert_eq, (bool_decide_eq_true_2 (name ∈ name :: _))
             by apply list_elem_of_here.
           by case_bool_decide.
        -- rewrite lookup_insert_ne by done.
           rewrite (bool_decide_ext (k ∈ name :: map fst (retained l))
                      (k ∈ map fst (retained l))); [done |].
           rewrite elem_of_cons. split; [by intros [? | ?] | by right].
Qed.

Lemma index_loop_defined (l : list (string * param)) :
  forall st : gmap string string * pynum,
    forallb (fun item => is_sized item.2) (retained l) = true ->
    exists r, outcome (for_each index_body st l) = Ok r.
Proof.
  induction l as [|[name p] l IH]; intros [wm t]; [by eexists |].
  cbn [for_each retained List.filter fst]. destruct (is_lora name) eqn:Hl.
  - rewrite index_body_lora by done. run_monad. intros Hs.
    destruct (IH (wm, t) Hs) as [r Hr]. exists r.
    rewrite for_each_index_pure, Hr. done.
  - rewrite index_body_kept by done. cbn [negb forallb snd].
    rewrite andb_true_iff. unfold is_sized at 1. intros [Hp Hs].
    destruct (get_dtype_size (p_dtype p)) as [sz|e]; [|done]. run_monad.
    edestruct IH as [r Hr]; [exact Hs |]. exists r.
    rewrite for_each_index_pure, Hr. done.
Qed.

Lemma gather_events_cons (enabled : bool) (k : string) (v : param)
    (l : list (string * param)) :
  gather_events enabled ((k, v) :: l) =
  gather_events enabled [(k, v)] ++ gather_events enabled l.
Proof. unfold gather_events. simpl. by rewrite app_nil_r. Qed.

(** A worker other than rank 0 only gathers. *)
Lemma gather_step_other (a : args)
    (st : gmap string tensor * gmap string string * pynum) (k : string)
    (v : param) :
  global_rank a <> 0 ->
  gather_step a st k v =
  (Ok st, gather_events (bool_decide (zero_stage a = 3)) [(k, v)]).
Proof.
  intros Hrank. destruct st as [[osd wm] t]. unfold gather_step, gather_events.
  rewrite (bool_decide_eq_false_2 (global_rank a = 0)) by done.
  simpl. destruct (has_ds_id v); by run_monad.
Qed.

Lemma gather_loop_other (a : args) (l : list (string * param)) :
  global_rank a <> 0 ->
  forall st,
    for_each (fun st '(k, v) => gather_step a st k v) st l =
    (Ok st, gather_events (bool_decide (zero_stage a = 3)) l).
Proof.
  intros Hrank. induction l as [|[k v] l IH]; intros st; [done |].
  cbn [for_each]. rewrite gather_step_other by done.
  rewrite (gather_events_cons _ k v l). run_monad. by rewrite IH.
Qed.

(** Rank 0 gathers and then runs the body of the index loop. *)
Lemma gather_step_rank0 (a : args) (osd : gmap string tensor)
    (wm : gmap string string) (t : pynum) (k : string) (v : param) :
  global_rank a = 0 ->
  gather_step a (osd, wm, t) k v =
  match outcome (index_body (wm, t) (k, v)) with
  | Ok (wm', t') =>
      (Ok (if is_lora k then osd else <[k := host_copy v]> osd, wm', t'),
       gather_events (bool_decide (zero_stage a = 3)) [(k, v)])
  | Raise e => (Raise e, gather_events (bool_decide (zero_stage a = 3)) [(k, v)])
  end.
Proof.
  intros Hrank. unfold gather_step, gather_events, host_copy.
  rewrite (bool_decide_eq_true_2 (global_rank a = 0)) by done.
  destruct (is_lora k) eqn:Hl.
  - rewrite index_body_lora by done. unfold is_lora in Hl. rewrite Hl.
    simpl. destruct (has_ds_id v); by run_monad.
  - rewrite index_body_kept by done. unfold is_lora in Hl. rewrite Hl.
    unfold index_step. simpl.
    destruct (has_ds_id v), (get_dtype_size (p_dtype v)); by run_monad.
Qed.

Lemma forallb_is_gather_events (enabled : bool) (l : list (string * param)) :
  forallb is_gather (gather_events enabled l) = true.
Proof.
  induction l as [|[k v] l IH]; [done |].
  rewrite gather_events_cons, forallb_app, IH, andb_true_r.
  unfold gather_events. simpl. by destruct (has_ds_id v).
Qed.

(** On rank 0 the gather loop completes exactly when the index loop
    does, with the same map and total; when size accounting raises, the
    loop stops there, having made only gather calls. *)
Lemma gather_loop_rank0 (a : args) (l : list (string * param)) :
  global_rank a = 0 ->
  forall (osd : gmap string tensor) (wm : gmap string string) (t : pynum),
    match outcome (for_each index_body (wm, t) l) with
    | Ok (wm', t') =>
        exists osd',
          for_each (fun st '(k, v) => gather_step a st k v) (osd, wm, t) l =
          (Ok (osd', wm', t'), gather_events (bool_decide (zero_stage a = 3)) l) /\
          (forall k, is_lora k = true -> osd' !! k = osd !! k)
    | Raise e =>
        exists tr,
          for_each (fun st '(k, v) => gather_step a st k v) (osd, wm, t) l =
          (Raise e, tr) /\
          forallb is_gather tr = true
    end.
Proof.
  intros Hrank. induction l as [|[k v] l IH]; intros osd wm t.
  - simpl. by exists osd.
  - cbn [for_each]. rewrite gather_step_rank0 by done.
    destruct (is_lora k) eqn:Hl.
    + rewrite index_body_lora by done. run_monad.
      rewrite for_each_index_pure.
      specialize (IH osd wm t).
      destruct (outcome (for_each index_body (wm, t) l)) as [[wm' t']|e]; simpl.
      * destruct IH as (osd' & -> & Hosd). exists osd'. by rewrite app_nil_r.
      * destruct IH as (tr & -> & Htr). eexists. split; [done |].
        rewrite app_nil_r, forallb_app, Htr, andb_true_r.
        by destruct (has_ds_id v).
    + rewrite index_body_kept by done.
      destruct (get_dtype_size (p_dtype v)) as [sz|e]; run_monad.
      * rewrite for_each_index_pure.
        specialize (IH (<[k := host_copy v]> osd) (<[k := WEIGHTS_NAME]> wm)
                      (py_add t (py_mul (PyInt (p_numel v)) sz))).
        destruct (outcome (for_each index_body _ l)) as [[wm' t']|e]; simpl.
        -- destruct IH as (osd' & -> & Hosd). exists osd'.
           rewrite app_nil_r. split; [done |].
           intros k' Hk'. rewrite Hosd by done. apply lookup_insert_ne.
           intros ->. congruence.
        -- destruct IH as (tr & -> & Htr). eexists. split; [done |].
           rewrite app_nil_r, forallb_app, Htr, andb_true_r.
           by destruct (has_ds_id v).
      * eexists. split; [done |]. by destruct (has_ds_id v).
Qed.

(** ** What a call of each export does *)

Lemma save_hf_format_run (m : model) (tok : tokenizer) (a : args)
    (sub_folder : string) :
  save_hf_format m tok a sub_folder =
  let out := path_join (output_dir a) sub_folder in
  match outcome (for_each index_body (∅, PyInt 0)
                   (named_parameters (model_to_save m))) with
  | Ok (wm, t) =>
      (Ok tt, hf_prefix m tok a sub_folder ++ index_event out wm t :: copies a out)
  | Raise e => (Raise e, hf_prefix m tok a sub_folder)
  end.
Proof.
  unfold save_hf_format. rewrite for_each_index_pure.
  destruct (outcome _) as [[wm t]|e]; by run_monad.
Qed.

Lemma save_zero_three_model_run_other (m : model) (tok : tokenizer) (a : args)
    (sub_folder : string) :
  global_rank a <> 0 ->
  save_zero_three_model m tok a sub_folder =
  (Ok tt,
   z3_dirs a sub_folder ++
   if bool_decide (zero_stage a = 3)
   then gather_events true (named_parameters (model_to_save m))
   else []).
Proof.
  intros Hrank. unfold save_zero_three_model.
  rewrite (bool_decide_eq_false_2 (global_rank a = 0)) by done.
  rewrite gather_loop_other by done.
  destruct (bool_decide (zero_stage a = 3)); run_monad; [|done].
  by rewrite !app_nil_r.
Qed.

Lemma save_zero_three_model_run_replicated (m : model) (tok : tokenizer)
    (a : args) (sub_folder : string) :
  global_rank a = 0 -> zero_stage a <> 3 ->
  save_zero_three_model m tok a sub_folder =
  let out := path_join (output_dir a) sub_folder in
  let saved :=
    TorchSave (state_dict (model_to_save m)) (path_join out WEIGHTS_NAME) in
  match outcome (for_each index_body (∅, PyInt 0)
                   (named_parameters (model_to_save m))) with
  | Ok (wm, t) =>
      (Ok tt,
       z3_dirs a sub_folder ++ saved :: index_event out wm t ::
       TokenizerSavePretrained tok out :: copies a out)
  | Raise e => (Raise e, z3_dirs a sub_folder ++ [saved])
  end.
Proof.
  intros Hrank Hstage. unfold save_zero_three_model.
  rewrite (bool_decide_eq_true_2 (global_rank a = 0)) by done.
  rewrite (bool_decide_eq_false_2 (zero_stage a = 3)) by done.
  rewrite for_each_index_pure.
  destruct (outcome _) as [[wm t]|e]; by run_monad.
Qed.

Lemma save_zero_three_model_run_partitioned (m : model) (tok : tokenizer)
    (a : args) (sub_folder : string) :
  global_rank a = 0 -> zero_stage a = 3 ->
  let out := path_join (output_dir a) sub_folder in
  match outcome (for_each index_body (∅, PyInt 0)
                   (named_parameters (model_to_save m))) with
  | Ok (wm, t) =>
      exists osd : gmap string tensor,
        save_zero_three_model m tok a sub_folder =
        (Ok tt,
         z3_dirs a sub_folder ++
         gather_events true (named_parameters (model_to_save m)) ++
         TorchSave osd (path_join out WEIGHTS_NAME) :: index_event out wm t ::
         TokenizerSavePretrained tok out :: copies a out) /\
        (forall k, is_lora k = true -> osd !! k = None)
  | Raise e =>
      exists tr,
        save_zero_three_model m tok a sub_folder =
        (Raise e, z3_dirs a sub_folder ++ tr) /\
        forallb is_gather tr = true
  end.
Proof.
  intros Hrank Hstage out. unfold save_zero_three_model.
  pose proof (gather_loop_rank0 a (named_parameters (model_to_save m)) Hrank
                ∅ ∅ (PyInt 0)) as Hloop.
  rewrite (bool_decide_eq_true_2 (global_rank a = 0)) by done.
  rewrite (bool_decide_eq_true_2 (zero_stage a = 3)) in * by done.
  destruct (outcome _) as [[wm t]|e].
  - destruct Hloop as (osd & -> & Hosd). exists osd. split.
    + run_monad. by rewrite <- app_assoc.
    + intros k Hk. by rewrite Hosd.
  - destruct Hloop as (tr & -> & Htr). exists tr. split; [|done].
    by run_monad.
Qed.

(** ** Observations on traces *)

Lemma gather_only (tr : list event) :
  forallb is_gather tr = true ->
  written_indexes tr = [] /\ saved_dicts tr = [] /\
  List.filter is_config_write tr = [] /\ List.filter is_gather tr = tr.
Proof.
  induction tr as [|e tr IH]; [done |]. simpl. rewrite andb_true_iff.
  intros [He Htr]. destruct (IH Htr) as (H1 & H2 & H3 & H4).
  destruct e; try discriminate. simpl. by rewrite H1, H2, H3, H4.
Qed.

Lemma gather_events_only (enabled : bool) (l : list (string * param)) :
  written_indexes (gather_events enabled l) = [] /\
  saved_dicts (gather_events enabled l) = [] /\
  List.filter is_config_write (gather_events enabled l) = [] /\
  List.filter is_gather (gather_events enabled l) = gather_events enabled l.
Proof. apply gather_only, forallb_is_gather_events. Qed.

Lemma gather_events_map (enabled : bool) (l : list (string * param)) :
  gather_events enabled l =
  map (fun item => GatheredParameters (_z3_params_to_fetch [item.2]) enabled)
    (List.filter (fun item => has_ds_id item.2) l).
Proof.
  induction l as [|[k v] l IH]; [done |].
  rewrite gather_events_cons, IH. unfold gather_events. simpl.
  by destruct (has_ds_id v).
Qed.

Lemma retained_no_lora (l : list (string * param)) :
  forallb (fun item => negb (is_lora item.1)) l = true -> retained l = l.
Proof.
  induction l as [|[k v] l IH]; [done |]. simpl. rewrite andb_true_iff.
  intros [Hk Hl]. rewrite Hk. by rewrite IH.
Qed.

(** ** [state_dict] and the adapter filter of [save_hf_format] *)

Lemma fold_insert_lookup (items : list (string * tensor)) :
  forall (d : gmap string tensor) (k : string),
    k ∈ items.*1 \/ is_Some (d !! k) ->
    is_Some (fold_left (fun d '(k, t) => <[k := t]> d) items d !! k).
Proof.
  induction items as [|[k' t] items IH]; intros d k.
  - simpl. intros [Hk | Hk]; [by apply elem_of_nil in Hk | done].
  - simpl. intros Hk. apply IH.
    destruct (decide (k = k')) as [-> | Hne].
    + right. rewrite lookup_insert_eq. by eexists.
    + destruct Hk as [Hk | Hk].
      * apply elem_of_cons in Hk as [Hk | Hk]; [done | by left].
      * right. by rewrite lookup_insert_ne.
Qed.

(** Every parameter of the model is a key of its [state_dict]. *)
Lemma state_dict_has_parameters (net : network) (k : string) (p : param) :
  In (k, p) (named_parameters net) -> is_Some (state_dict net !! k).
Proof.
  intros Hin. unfold state_dict. apply fold_insert_lookup. left.
  rewrite fmap_app, elem_of_app. left.
  apply list_elem_of_In in Hin.
  apply list_elem_of_fmap. exists (k, p_data p). split; [done |].
  apply list_elem_of_In, in_map_iff. exists (k, p). split; [done |].
  by apply list_elem_of_In.
Qed.

Lemma drop_keys_lookup (keys : list string) :
  forall (d : gmap string tensor) (k : string),
    fold_left (fun d key => if str_in "lora" key then delete key d else d)
      keys d !! k =
    if is_lora k && bool_decide (k ∈ keys) then None else d !! k.
Proof.
  induction keys as [|key keys IH]; intros d k.
  - cbn [fold_left].
    rewrite (bool_decide_eq_false_2 (k ∈ [])) by apply not_elem_of_nil.
    by rewrite andb_false_r.
  - cbn [fold_left]. rewrite IH.
    destruct (decide (k = key)) as [-> | Hne].
    + rewrite (bool_decide_eq_true_2 (key ∈ key :: keys))
        by apply list_elem_of_here.
      unfold is_lora. destruct (str_in "lora" key); simpl; [|done].
      rewrite lookup_delete_eq. by case_bool_decide.
    + rewrite (bool_decide_ext (k ∈ key :: keys) (k ∈ keys)).
      2:{ rewrite elem_of_cons. split; [by intros [? | ?] | by right]. }
      destruct (str_in "lora" key); [|done].
      by rewrite lookup_delete_ne.
Qed.

(** [drop_lora] removes exactly the keys that contain "lora". *)
Lemma drop_lora_lookup (d : gmap string tensor) (k : string) :
  drop_lora d !! k = if is_lora k then None else d !! k.
Proof.
  unfold drop_lora. rewrite drop_keys_lookup.
  destruct (is_lora k); [|done]. simpl. case_bool_decide as Hk; [done |].
  destruct (d !! k) as [t|] eqn:Hd; [|done]. exfalso. apply Hk.
  apply list_elem_of_fmap. exists (k, t). split; [done |].
  by apply elem_of_map_to_list.
Qed.

Lemma written_indexes_app (t1 t2 : list event) :
  written_indexes (t1 ++ t2) = written_indexes t1 ++ written_indexes t2.
Proof. apply flat_map_app. Qed.

Lemma saved_dicts_app (t1 t2 : list event) :
  saved_dicts (t1 ++ t2) = saved_dicts t1 ++ saved_dicts t2.
Proof. apply flat_map_app. Qed.

(** The three shapes of a [save_zero_three_model] call, by rank and
    stage, for case analysis. *)
Ltac z3_cases m tok a sub :=
  destruct (decide (global_rank a = 0)) as [Hrank | Hrank];
  [ destruct (decide (zero_stage a = 3)) as [Hstage | Hstage];
    [ pose proof (save_zero_three_model_run_partitioned m tok a sub Hrank Hstage)
        as Hrun
    | pose proof (save_zero_three_model_run_replicated m tok a sub Hrank Hstage)
        as Hrun ]
  | pose proof (save_zero_three_model_run_other m tok a sub Hrank) as Hrun ].

(** ** C1: adapter weights in the exported files *)

(** Where the filter is applied: no index file of either export maps a
    "lora" name, and neither [save_hf_format] nor the partitioned branch
    of [save_zero_three_model] puts one in the weights file. *)
Lemma export_filters_lora (m : model) (tok : tokenizer) (a : args)
    (sub_folder : string) (k : string) :
  is_lora k = true ->
  Forall (fun idx => weight_map idx !! k = None)
    (written_indexes (trace (save_hf_format m tok a sub_folder))) /\
  Forall (fun d : gmap string tensor => d !! k = None)
    (saved_dicts (trace (save_hf_format m tok a sub_folder))) /\
  Forall (fun idx => weight_map idx !! k = None)
    (written_indexes (trace (save_zero_three_model m tok a sub_folder))) /\
  (zero_stage a = 3 ->
   Forall (fun d : gmap string tensor => d !! k = None)
     (saved_dicts (trace (save_zero_three_model m tok a sub_folder)))).
Proof.
  intros Hk.
  assert (forall wm t,
             outcome (for_each index_body (∅, PyInt 0)
                        (named_parameters (model_to_save m))) = Ok (wm, t) ->
             wm !! k = None) as Hwm.
  { intros wm t Hloop. apply index_loop_ok in Hloop as [_ Hmap].
    rewrite Hmap. case_bool_decide as Hin; [|done]. exfalso.
    apply list_elem_of_In, in_map_iff in Hin as ([k' p] & <- & Hin).
    apply filter_In in Hin as [_ Hin]. simpl in *. by rewrite Hk in Hin. }
  pose proof (gather_events_only true (named_parameters (model_to_save m)))
    as (Hgi & Hgd & _).
  split_and!.
  - rewrite save_hf_format_run.
    destruct (outcome _) as [[wm t]|e] eqn:Hloop; simpl; [|constructor].
    repeat constructor. simpl. by apply (Hwm wm t).
  - rewrite save_hf_format_run.
    destruct (outcome _) as [[wm t]|e] eqn:Hloop; simpl;
      repeat constructor; by rewrite drop_lora_lookup, Hk.
  - z3_cases m tok a sub_folder.
    + cbv zeta in Hrun. destruct (outcome _) as [[wm t]|e] eqn:Hloop.
      * destruct Hrun as (osd & -> & _). unfold trace. cbn [snd].
        rewrite !written_indexes_app, Hgi. simpl.
        repeat constructor. simpl. by apply (Hwm wm t).
      * destruct Hrun as (tr & -> & Htr). unfold trace. cbn [snd].
        rewrite written_indexes_app.
        apply gather_only in Htr as (-> & _). constructor.
    + rewrite Hrun. simpl.
      destruct (outcome _) as [[wm t]|e] eqn:Hloop; simpl; [|constructor].
      repeat constructor. simpl. by apply (Hwm wm t).
    + rewrite Hrun. unfold trace. cbn [snd]. rewrite written_indexes_app.
      case_bool_decide; [rewrite Hgi |]; constructor.
  - intros Hstage3. z3_cases m tok a sub_folder; [| done |].
    + cbv zeta in Hrun. destruct (outcome _) as [[wm t]|e] eqn:Hloop.
      * destruct Hrun as (osd & -> & Hosd). unfold trace. cbn [snd].
        rewrite !saved_dicts_app, Hgd. simpl.
        repeat constructor. by apply Hosd.
      * destruct Hrun as (tr & -> & Htr). unfold trace. cbn [snd].
        rewrite saved_dicts_app.
        apply gather_only in Htr as (_ & -> & _). constructor.
    + rewrite Hrun. unfold trace. cbn [snd]. rewrite saved_dicts_app.
      case_bool_decide; [rewrite Hgd |]; constructor.
Qed.

(** The replicated branch of [save_zero_three_model] saves the whole
    [state_dict], adapter weights included. *)
Lemma replicated_branch_saves_state_dict (m : model) (tok : tokenizer)
    (a : args) (sub_folder : string) :
  global_rank a = 0 -> zero_stage a <> 3 ->
  saved_dicts (trace (save_zero_three_model m tok a sub_folder)) =
  [state_dict (model_to_save m)].
Proof.
  intros Hrank Hstage. rewrite save_zero_three_model_run_replicated by done.
  simpl. by destruct (outcome _) as [[wm t]|e].
Qed.

(** C1, at a model with an adapter weight, on rank 0 with
    [zero_stage = 0]: the weights file [save_zero_three_model] writes
    holds the key "h.0.lora_A.weight", which the index written by the
    same call leaves out, and which [save_hf_format] drops. *)
Theorem replicated_branch_persists_lora :
  let a := sample_args 0 0 in
  let z3 := trace (save_zero_three_model (Bare lora_net) sample_tokenizer a "") in
  let hf := trace (save_hf_format (Bare lora_net) sample_tokenizer a "") in
  is_lora "h.0.lora_A.weight" = true /\
  In ("h.0.lora_A.weight", sample_param 4 float32 None)
    (named_parameters lora_net) /\
  Forall (fun d : gmap string tensor =>
            d !! "h.0.lora_A.weight" = Some (p_data (sample_param 4 float32 None)))
    (saved_dicts z3) /\
  length (saved_dicts z3) = 1%nat /\
  Forall (fun idx => weight_map idx !! "h.0.lora_A.weight" = None)
    (written_indexes z3) /\
  Forall (fun d : gmap string tensor => d !! "h.0.lora_A.weight" = None)
    (saved_dicts hf).
Proof.
  intros a z3 hf.
  pose proof (export_filters_lora (Bare lora_net) sample_tokenizer a ""
                "h.0.lora_A.weight" eq_refl) as (_ & Hhf & Hidx & _).
  subst z3 hf.
  rewrite (replicated_branch_saves_state_dict (Bare lora_net)) in * by done.
  split_and!; [reflexivity | right; by left | | reflexivity | exact Hidx | exact Hhf].
  repeat constructor.
Qed.

(** ** C3: what a worker other than rank 0 writes *)

(** C3, as stated, fails.  With [global_rank = 1] and [zero_stage = 0],
    [save_zero_three_model] creates the two directories, and
    [save_hf_format], which never reads [global_rank], does on rank 1
    all that it does on rank 0. *)
Lemma other_rank_replicated_export_writes :
  let a1 := sample_args 1 0 in
  let a0 := sample_args 0 0 in
  global_rank a1 <> 0 /\ zero_stage a1 <> 3 /\
  List.filter fs_write
    (trace (save_zero_three_model (Bare plain_net) sample_tokenizer a1 ""))
  = [Makedirs "out"; Makedirs "out/"] /\
  trace (save_hf_format (Bare plain_net) sample_tokenizer a1 "")
  = trace (save_hf_format (Bare plain_net) sample_tokenizer a0 "") /\
  length
    (List.filter fs_write
       (trace (save_hf_format (Bare plain_net) sample_tokenizer a1 "")))
  = 7%nat.
Proof.
  intros a1 a0.
  split_and!; [discriminate | discriminate | | |]; vm_compute; reflexivity.
Qed.

(** C3 (amended).  With [global_rank <> 0], a call of
    [save_zero_three_model] outside stage 3 writes no file and runs no
    copy: it returns after creating, idempotently, [output_dir] and
    [output_dir/sub_folder].  [save_hf_format] does not depend on
    [global_rank] at all. *)
Theorem other_rank_replicated_export (m : model) (tok : tokenizer) (a : args)
    (sub_folder : string) :
  global_rank a <> 0 ->
  zero_stage a <> 3 ->
  save_zero_three_model m tok a sub_folder =
  (Ok tt,
   [Makedirs (output_dir a); Makedirs (path_join (output_dir a) sub_folder)]) /\
  forall rank stage : Z,
    save_hf_format m tok
      {| output_dir := output_dir a;
         model_name_or_path := model_name_or_path a;
         global_rank := rank; zero_stage := stage |} sub_folder
    = save_hf_format m tok a sub_folder.
Proof.
  intros Hrank Hstage. split.
  - rewrite save_zero_three_model_run_other by done.
    by rewrite bool_decide_eq_false_2.
  - reflexivity.
Qed.

Lemma other_rank_replicated_export_witness :
  save_zero_three_model (Wrapped lora_net) sample_tokenizer (sample_args 2 0)
    "final"
  = (Ok tt, [Makedirs "out"; Makedirs "out/final"]).
Proof.
  apply (other_rank_replicated_export (Wrapped lora_net) sample_tokenizer
           (sample_args 2 0) "final"); discriminate.
Defined.

(** ** C4: gathers in the partitioned export *)

(** C4, as stated, fails.  The first parameter of [fp8_net] has a dtype
    whose name does not end in digits: rank 0 raises [ValueError] right
    after gathering it and never gathers the second parameter; rank 1
    gathers both. *)
Lemma gather_count_depends_on_rank :
  let run rank :=
    save_zero_three_model (Bare fp8_net) sample_tokenizer (sample_args rank 3) ""
  in
  length (List.filter (fun item => has_ds_id item.2) (named_parameters fp8_net))
  = 2%nat /\
  outcome (run 0) = Raise (invalid_dtype "torch.float8_e4m3fn") /\
  length (List.filter is_gather (trace (run 0))) = 1%nat /\
  outcome (run 1) = Ok tt /\
  length (List.filter is_gather (trace (run 1))) = 2%nat.
Proof. intros run. split_and!; vm_compute; reflexivity. Qed.

(** ** C5: the ancillary files of the partitioned export *)

(** C5, on the code: no call of [save_zero_three_model], in either
    branch and on any rank, writes the model configuration, while every
    completed or aborted call of [save_hf_format] writes [config.json];
    what rank 0 writes after the gather loop is the weights file, the
    index, the tokenizer and the two copies, as the run on [sharded_net]
    shows next to the run of [save_hf_format]. *)
Theorem save_zero_three_model_writes_no_config :
  (forall (m : model) (tok : tokenizer) (a : args) (sub_folder : string),
      List.filter is_config_write
        (trace (save_zero_three_model m tok a sub_folder)) = []) /\
  (forall (m : model) (tok : tokenizer) (a : args) (sub_folder : string),
      List.filter is_config_write (trace (save_hf_format m tok a sub_folder)) =
      [ConfigToJsonFile (config (model_to_save m))
         (path_join (path_join (output_dir a) sub_folder) CONFIG_NAME)]) /\
  map call_of
    (trace (save_zero_three_model (Bare sharded_net) sample_tokenizer
              (sample_args 0 3) "")) =
  [makedirs; makedirs;
   gathered_parameters; gathered_parameters; gathered_parameters;
   torch_save; write_index_json; tokenizer_save_pretrained;
   os_system; os_system] /\
  map call_of
    (trace (save_hf_format (Bare sharded_net) sample_tokenizer
              (sample_args 0 3) "")) =
  [makedirs; torch_save; config_to_json_file; tokenizer_save_pretrained;
   write_index_json; os_system; os_system].
Proof.
  split_and!.
  - intros m tok a sub_folder.
    pose proof (gather_events_only true (named_parameters (model_to_save m)))
      as (_ & _ & Hg & _).
    z3_cases m tok a sub_folder.
    + cbv zeta in Hrun. destruct (outcome _) as [[wm t]|e].
      * destruct Hrun as (osd & -> & _). unfold trace. cbn [snd].
        by rewrite !List.filter_app, Hg.
      * destruct Hrun as (tr & -> & Htr). unfold trace. cbn [snd].
        apply gather_only in Htr as (_ & _ & Htr & _).
        by rewrite List.filter_app, Htr.
    + rewrite Hrun. simpl. by destruct (outcome _) as [[wm t]|e].
    + rewrite Hrun. unfold trace. cbn [snd]. rewrite List.filter_app.
      case_bool_decide; [by rewrite Hg | done].
  - intros m tok a sub_folder. rewrite save_hf_format_run. simpl.
    by destruct (outcome _) as [[wm t]|e].
  - vm_compute. reflexivity.
  - vm_compute. reflexivity.
Qed.

(** ** C7: [to_device] *)

Section DeviceTransferFacts.
Context {K V D : Type} `{EqDecision K}.
Variable to : V -> D -> result V.

Lemma dict_set_fresh (k : K) (v : V) (d : list (K * V)) :
  k ∉ d.*1 -> dict_set k v d = d ++ [(k, v)].
Proof.
  induction d as [|[k' v'] d IH]; intros Hk; [done |].
  rewrite fmap_cons, not_elem_of_cons in Hk. destruct Hk as [Hne Hk].
  simpl. destruct (decide (k = k')); [done |]. by rewrite IH.
Qed.

Lemma to_device_loop_app (device : D) (items : list (K * V)) :
  forall output : list (K * V),
    NoDup (output.*1 ++ items.*1) ->
    to_device_loop to items device output =
    Ok (output ++ map (moved_or_kept to device) items).
Proof.
  induction items as [|[k v] items IH]; intros output Hnd.
  - simpl. by rewrite app_nil_r.
  - assert (k ∉ output.*1) as Hk.
    { apply NoDup_app in Hnd as (_ & Hdisj & _). intros Hin.
      apply (Hdisj k Hin). rewrite fmap_cons. apply list_elem_of_here. }
    assert (forall w, NoDup ((output ++ [(k, w)]).*1 ++ items.*1)) as Hnd'.
    { intros w. rewrite fmap_app, <- app_assoc. exact Hnd. }
    cbn [to_device_loop map]. unfold moved_or_kept at 1. simpl.
    destruct (to v device) as [moved|e];
      rewrite dict_set_fresh, IH by done; by rewrite <- app_assoc.
Qed.
End DeviceTransferFacts.

(** C7.  On a mapping (an item list without repeated keys) [to_device]
    raises nothing: it returns the mapping with the same keys in the
    same order in which each value is the moved one where [to]
    succeeds and the original one where [to] raises, key by key. *)
Theorem to_device_total {K V D : Type} `{EqDecision K}
    (to : V -> D -> result V) (batch : list (K * V)) (device : D) :
  NoDup (map fst batch) ->
  to_device to batch device = Ok (map (moved_or_kept to device) batch) /\
  map fst (map (moved_or_kept to device) batch) = map fst batch /\
  (forall (k : K) (v : V),
      In (k, v) batch ->
      In (k, match to v device with Ok moved => moved | Raise _ => v end)
        (map (moved_or_kept to device) batch)).
Proof.
  intros Hnd. split_and!.
  - unfold to_device. by rewrite to_device_loop_app.
  - rewrite map_map. apply map_ext. intros [k v]. unfold moved_or_kept. simpl.
    by destruct (to v device).
  - intros k v Hin. apply in_map_iff. exists (k, v). split; [|done].
    unfold moved_or_kept. simpl. by destruct (to v device).
Qed.

Lemma to_device_total_witness :
  to_device batch_value_to sample_batch "cuda:0" =
  Ok [("input_ids", BatchTensor [1; 2; 3] "cuda:0"); ("length", BatchOther 3)].
Proof.
  apply (to_device_total batch_value_to sample_batch "cuda:0").
  compute_done.
Defined.

(** ** C8: [set_random_seed] *)

(** C8.  Without a seed, [set_random_seed] leaves the state of every
    generator as it was, whatever the five seeding calls do. *)
Theorem set_random_seed_none {World : Type}
    (set_seed random_seed np_random_seed torch_manual_seed
       torch_cuda_manual_seed_all : Z -> World -> World) (w : World) :
  set_random_seed set_seed random_seed np_random_seed torch_manual_seed
    torch_cuda_manual_seed_all None w = w.
Proof. reflexivity. Qed.

(** ** C9: [get_optimizer_grouped_parameters] *)

Lemma any_in_false (no_decay_name_list : list string) (n : string) :
  any_in no_decay_name_list n = false <->
  forall nd, In nd no_decay_name_list -> str_in nd n = false.
Proof.
  unfold any_in. induction no_decay_name_list as [|x l IH]; simpl.
  - split; [by intros _ nd [] | done].
  - rewrite orb_false_iff, IH. split.
    + intros [Hx Hl] nd [<- | Hin]; [done | by apply Hl].
    + intros Hall. split; [apply Hall; by left | intros nd Hin; apply Hall; by right].
Qed.

Lemma any_in_true (no_decay_name_list : list string) (n : string) :
  any_in no_decay_name_list n = true <->
  exists nd, In nd no_decay_name_list /\ str_in nd n = true.
Proof.
  unfold any_in. rewrite existsb_exists. reflexivity.
Qed.

(** C9.  The result is the decay group followed by the no-decay group;
    the first carries the given weight decay and holds exactly the
    parameters that require gradients and whose name contains none of
    the substrings, the second carries 0.0 and holds exactly those that
    require gradients and whose name contains one of them. *)
Theorem optimizer_groups (net : network) (wd : pynum)
    (no_decay_name_list : list string) :
  exists decay no_decay : param_group,
    get_optimizer_grouped_parameters net wd no_decay_name_list =
    [decay; no_decay] /\
    weight_decay decay = wd /\
    weight_decay no_decay = PyFloat 0 /\
    (forall p,
        In p (params decay) <->
        exists n, In (n, p) (named_parameters net) /\ requires_grad p = true /\
                  forall nd, In nd no_decay_name_list -> str_in nd n = false) /\
    (forall p,
        In p (params no_decay) <->
        exists n, In (n, p) (named_parameters net) /\ requires_grad p = true /\
                  exists nd, In nd no_decay_name_list /\ str_in nd n = true) /\
    (forall p, requires_grad p = false ->
               ~ In p (params decay) /\ ~ In p (params no_decay)).
Proof.
  eexists _, _. split; [reflexivity |]. cbn [weight_decay params].
  assert (forall p,
             In p (map snd
                     (List.filter
                        (fun '(n, p) =>
                           negb (any_in no_decay_name_list n) && requires_grad p)
                        (named_parameters net))) <->
             exists n, In (n, p) (named_parameters net) /\
                       requires_grad p = true /\
                       forall nd, In nd no_decay_name_list -> str_in nd n = false)
    as Hdecay.
  { intros p. rewrite in_map_iff. split.
    - intros ([n p'] & <- & Hin). apply filter_In in Hin as [Hin Hc].
      apply andb_true_iff in Hc as [Hn Hg]. apply negb_true_iff in Hn.
      exists n. split_and!; [done | done | by apply any_in_false].
    - intros (n & Hin & Hg & Hn). exists (n, p). split; [done |].
      apply filter_In. split; [done |].
      apply any_in_false in Hn. by rewrite Hn, Hg. }
  assert (forall p,
             In p (map snd
                     (List.filter
                        (fun '(n, p) =>
                           any_in no_decay_name_list n && requires_grad p)
                        (named_parameters net))) <->
             exists n, In (n, p) (named_parameters net) /\
                       requires_grad p = true /\
                       exists nd, In nd no_decay_name_list /\ str_in nd n = true)
    as Hno.
  { intros p. rewrite in_map_iff. split.
    - intros ([n p'] & <- & Hin). apply filter_In in Hin as [Hin Hc].
      apply andb_true_iff in Hc as [Hn Hg].
      exists n. split_and!; [done | done | by apply any_in_true].
    - intros (n & Hin & Hg & Hn). exists (n, p). split; [done |].
      apply filter_In. split; [done |].
      apply any_in_true in Hn. by rewrite Hn, Hg. }
  split_and!; try done.
  intros p Hp. split.
  - rewrite Hdecay. intros (n & _ & Hg & _). congruence.
  - rewrite Hno. intros (n & _ & Hg & _). congruence.
Qed.

Example optimizer_groups_default :
  map (fun g => (length (params g), weight_decay g))
    (get_optimizer_grouped_parameters plain_net (PyFloat (1 # 10))
       default_no_decay_name_list)
  = [(2%nat, PyFloat (1 # 10)); (1%nat, PyFloat 0)].
Proof. reflexivity. Qed.

(** ** C10: [get_all_reduce_mean] *)

(** C10.  With a process group and a live tensor, the call returns a
    tensor object that did not exist before, holding the sum over the
    workers divided by the world size, and leaves in the caller's
    tensor the sum itself; no other tensor changes. *)
Theorem get_all_reduce_mean_in_place {T : Type} (tsum : list T -> T)
    (tdiv : T -> Z -> T) (g : process_group) (tensor : nat)
    (store : gmap nat T) (v : T) :
  store !! tensor = Some v ->
  let total := tsum (lower_ranks g ++ v :: higher_ranks g) in
  let n := Z.of_nat (length (lower_ranks g) + 1 + length (higher_ranks g)) in
  exists (r : nat) (store' : gmap nat T),
    get_all_reduce_mean tsum tdiv (Some g) tensor store = Ok (r, store') /\
    r <> tensor /\
    store !! r = None /\
    store' !! tensor = Some total /\
    store' !! r = Some (tdiv total n) /\
    (forall other, other <> tensor -> other <> r ->
                   store' !! other = store !! other).
Proof.
  intros Hv total n. unfold get_all_reduce_mean, all_reduce, true_divide.
  rewrite Hv. cbn [get_world_size]. rewrite lookup_insert_eq.
  fold total. fold n.
  set (store1 := <[tensor := total]> store).
  pose proof (is_fresh (dom store1)) as Hfresh.
  set (r := fresh (dom store1)) in *.
  assert (r <> tensor) as Hne.
  { intros ->. apply Hfresh. unfold store1. rewrite dom_insert_L. set_solver. }
  assert (store !! r = None) as Hnone.
  { apply not_elem_of_dom. intros Hin. apply Hfresh. unfold store1.
    rewrite dom_insert_L. set_solver. }
  exists r, (<[r := tdiv total n]> store1). split_and!; try done.
  - rewrite lookup_insert_ne by done. apply lookup_insert_eq.
  - apply lookup_insert_eq.
  - intros other H1 H2. unfold store1. by rewrite !lookup_insert_ne.
Qed.

Lemma get_all_reduce_mean_in_place_witness :
  exists (r : nat) (store' : gmap nat Z),
    get_all_reduce_mean sum_Z Z.div (Some sample_group) 7%nat {[7%nat := 5]}
    = Ok (r, store') /\
    r <> 7%nat /\
    ({[7%nat := 5]} : gmap nat Z) !! r = None /\
    store' !! 7%nat = Some 9 /\
    store' !! r = Some 3 /\
    (forall other, other <> 7%nat -> other <> r ->
                   store' !! other = ({[7%nat := 5]} : gmap nat Z) !! other).
Proof.
  apply (get_all_reduce_mean_in_place sum_Z Z.div sample_group 7%nat
           {[7%nat := 5]} 5).
  reflexivity.
Defined.


(** * Further properties of the code *)

(** ** [get_dtype_size]: the number it reads and the value it returns *)

Lemma is_digit_val (c : ascii) : is_digit c = true -> 0 <= digit_val c <= 9.
Proof.
  unfold is_digit, digit_val. rewrite andb_true_iff, !Z.leb_le. lia.
Qed.

Lemma fold_digits_nonneg (ds : list ascii) :
  forall acc : Z,
    0 <= acc ->
    Forall (fun c => is_digit c = true) ds ->
    0 <= fold_left (fun acc c => 10 * acc + digit_val c) ds acc.
Proof.
  induction ds as [|c ds IH]; intros acc Hacc Hds; [done |].
  inversion Hds as [|? ? Hc Hds']; subst. simpl. apply IH; [|done].
  apply is_digit_val in Hc. lia.
Qed.

Lemma int_of_digits_nonneg (ds : list ascii) :
  Forall (fun c => is_digit c = true) ds -> 0 <= int_of_digits ds.
Proof. intros Hds. by apply fold_digits_nonneg. Qed.

Lemma forall_digits_rev (l : list ascii) :
  Forall (fun c => is_digit c = true) (rev l) ->
  Forall (fun c => is_digit c = true) l.
Proof.
  rewrite !Forall_forall. intros H c Hc. apply H.
  apply list_elem_of_In, in_rev. rewrite rev_involutive.
  by apply list_elem_of_In.
Qed.

(** A string that ends in a digit and is not made of digits only splits
    into some text, a non-digit, and its final run of digits. *)
Lemma trailing_run_split (l : list ascii) :
  ends_in_digit l = true ->
  forallb is_digit l = false ->
  exists pre c ds,
    l = pre ++ c :: ds /\ is_digit c = false /\ ds <> [] /\
    Forall (fun c => is_digit c = true) ds /\
    (span_digits (rev l)).1 = rev ds.
Proof.
  intros Hend Hsome. unfold ends_in_digit in Hend.
  destruct (last l) as [d|] eqn:Hlast; [|done].
  apply last_Some in Hlast as [l' Hl'].
  destruct (span_digits_split (rev l)) as (Hsplit & Hrun & Hrest).
  destruct (span_digits (rev l)) as [run rest]; simpl in *.
  assert (rev l = d :: rev l') as Hrev by (by rewrite Hl', rev_unit).
  destruct rest as [|c rest].
  - exfalso. rewrite app_nil_r in Hsplit. rewrite <- Hsplit in Hrun.
    apply forall_digits_rev in Hrun.
    rewrite Forall_forall in Hrun.
    assert (forallb is_digit l = true); [|congruence].
    apply forallb_forall. intros x Hx. apply Hrun. by apply list_elem_of_In.
  - destruct run as [|r run].
    { exfalso. simpl in Hsplit. rewrite Hrev in Hsplit.
      injection Hsplit as <- _. congruence. }
    exists (rev rest), c, (rev (r :: run)). split_and!.
    + rewrite <- (rev_involutive l), Hsplit, rev_app_distr. simpl.
      by rewrite <- !app_assoc.
    + done.
    + simpl. intros Hnil. by apply app_eq_nil in Hnil as [_ ?].
    + apply forall_digits_rev. by rewrite rev_involutive.
    + by rewrite rev_involutive.
Qed.

Lemma get_dtype_size_trailing (repr : string) :
  ends_in_digit (String.list_ascii_of_string repr) = true ->
  forallb is_digit (String.list_ascii_of_string repr) = false ->
  exists ds,
    ds <> [] /\ Forall (fun c => is_digit c = true) ds /\
    spec_bit_width (dtype_named repr) = Some (int_of_digits ds) /\
    get_dtype_size (dtype_named repr) = Ok (PyInt (int_of_digits ds / 8)).
Proof.
  intros Hend Hsome.
  destruct (trailing_run_split _ Hend Hsome)
    as (pre & c & ds & Hl & Hc & Hne & Hds & Hspan).
  exists ds. split_and!; [done | done | |].
  - unfold spec_bit_width. cbn [dtype_str]. rewrite Hspan.
    destruct (rev ds) as [|x xs] eqn:Hrev.
    + exfalso. apply Hne. by rewrite <- (rev_involutive ds), Hrev.
    + by rewrite <- Hrev, rev_involutive.
  - unfold get_dtype_size. rewrite Hl.
    rewrite <- (app_nil_r ds) at 1. rewrite re_search_shape; auto.
Qed.

(** X1.  When the string form of a dtype ends in a digit and is not
    made of digits only, [get_dtype_size] reads the whole final run of
    digits as N and returns the integer floor(N / 8). *)
Theorem get_dtype_size_reads_trailing_number (repr : string) :
  ends_in_digit (String.list_ascii_of_string repr) = true ->
  forallb is_digit (String.list_ascii_of_string repr) = false ->
  exists N,
    spec_bit_width (dtype_named repr) = Some N /\ 0 <= N /\
    get_dtype_size (dtype_named repr) = Ok (PyInt (N / 8)).
Proof.
  intros Hend Hsome.
  destruct (get_dtype_size_trailing repr Hend Hsome) as (ds & _ & Hds & Hw & Hsz).
  exists (int_of_digits ds). split_and!; [done | by apply int_of_digits_nonneg | done].
Qed.

Lemma get_dtype_size_reads_trailing_number_witness :
  exists N,
    spec_bit_width (dtype_named "torch.complex128") = Some N /\ 0 <= N /\
    get_dtype_size (dtype_named "torch.complex128") = Ok (PyInt (N / 8)).
Proof.
  apply (get_dtype_size_reads_trailing_number "torch.complex128"); reflexivity.
Defined.

(** X2.  For a width N that is a multiple of 8 the value returned is
    exactly N/8 bytes: on byte-aligned kinds the floor loses nothing. *)
Theorem get_dtype_size_byte_aligned (repr : string) (N : Z) :
  ends_in_digit (String.list_ascii_of_string repr) = true ->
  forallb is_digit (String.list_ascii_of_string repr) = false ->
  spec_bit_width (dtype_named repr) = Some N ->
  N mod 8 = 0 ->
  exists r,
    get_dtype_size (dtype_named repr) = Ok r /\
    (num_val r == spec_byte_width N)%Q.
Proof.
  intros Hend Hsome HN Hmod.
  destruct (get_dtype_size_trailing repr Hend Hsome) as (ds & _ & _ & Hw & Hsz).
  rewrite HN in Hw. injection Hw as ->.
  eexists. split; [exact Hsz |].
  unfold spec_byte_width. cbn [num_val].
  apply Z.div_exact in Hmod; [|lia].
  rewrite Hmod at 2. rewrite inject_Z_mult. field.
Qed.

Lemma get_dtype_size_byte_aligned_witness :
  exists r,
    get_dtype_size (dtype_named "torch.int64") = Ok r /\
    (num_val r == spec_byte_width 64)%Q.
Proof.
  apply (get_dtype_size_byte_aligned "torch.int64" 64); reflexivity.
Defined.

(** X3.  Whatever [get_dtype_size] returns is non-negative, and for a
    dtype other than [torch.bool] it is an integer. *)
Theorem get_dtype_size_nonneg (d : dtype) (n : pynum) :
  get_dtype_size d = Ok n ->
  (0 <= num_val n)%Q /\
  (d <> torch_bool -> exists z, n = PyInt z /\ 0 <= z).
Proof.
  destruct d as [|repr]; simpl.
  - intros [= <-]. split; [done | by intros []].
  - destruct (re_search _) as [g|] eqn:Hs; [|done]. intros [= <-].
    apply re_search_inv in Hs as (_ & _ & _ & _ & _ & _ & Hg & _).
    apply int_of_digits_nonneg in Hg.
    assert (0 <= int_of_digits g / 8) as Hz by (apply Z.div_pos; lia).
    split; [| by eexists].
    cbn [num_val]. unfold Qle. simpl. lia.
Qed.

Lemma get_dtype_size_nonneg_witness :
  (0 <= num_val (PyInt 0))%Q /\
  (dtype_named "torch.uint4" <> torch_bool -> exists z, PyInt 0 = PyInt z /\ 0 <= z).
Proof.
  apply (get_dtype_size_nonneg (dtype_named "torch.uint4") (PyInt 0)).
  reflexivity.
Defined.

(** ** The index file, for any model *)

(** Every index either export writes comes from a completed index loop. *)
Lemma written_index_origin (m : model) (tok : tokenizer) (a : args)
    (sub_folder : string) (P : index_dict -> Prop) :
  (forall wm t,
      outcome (for_each index_body (∅, PyInt 0)
                 (named_parameters (model_to_save m))) = Ok (wm, t) ->
      P {| weight_map := wm; metadata := {["total_size" := t]} |}) ->
  Forall P (written_indexes (trace (save_hf_format m tok a sub_folder))) /\
  Forall P (written_indexes (trace (save_zero_three_model m tok a sub_folder))).
Proof.
  intros HP.
  pose proof (gather_events_only true (named_parameters (model_to_save m)))
    as (Hgi & _).
  split.
  - rewrite save_hf_format_run.
    destruct (outcome _) as [[wm t]|e] eqn:Hloop; simpl; [|constructor].
    repeat constructor. by apply HP.
  - z3_cases m tok a sub_folder.
    + cbv zeta in Hrun. destruct (outcome _) as [[wm t]|e] eqn:Hloop.
      * destruct Hrun as (osd & -> & _). unfold trace. cbn [snd].
        rewrite !written_indexes_app, Hgi. simpl.
        repeat constructor. by apply HP.
      * destruct Hrun as (tr & -> & Htr). unfold trace. cbn [snd].
        rewrite written_indexes_app.
        apply gather_only in Htr as (-> & _). constructor.
    + rewrite Hrun. simpl.
      destruct (outcome _) as [[wm t]|e] eqn:Hloop; simpl; [|constructor].
      repeat constructor. by apply HP.
    + rewrite Hrun. unfold trace. cbn [snd]. rewrite written_indexes_app.
      case_bool_decide; [rewrite Hgi |]; constructor.
Qed.

(** X4.  In every index file written by [save_hf_format] or
    [save_zero_three_model], [weight_map] has exactly the names of the
    parameters without "lora" as keys, each mapped to the one weights
    file name. *)
Theorem index_maps_retained_names (m : model) (tok : tokenizer) (a : args)
    (sub_folder : string) :
  let maps_retained idx :=
    forall k : string,
      weight_map idx !! k =
      if bool_decide (k ∈ map fst (retained (named_parameters (model_to_save m))))
      then Some WEIGHTS_NAME else None in
  Forall maps_retained
    (written_indexes (trace (save_hf_format m tok a sub_folder))) /\
  Forall maps_retained
    (written_indexes (trace (save_zero_three_model m tok a sub_folder))).
Proof.
  intros maps_retained. apply written_index_origin. intros wm t Hloop k.
  apply index_loop_ok in Hloop as [_ Hmap]. cbn [weight_map].
  rewrite Hmap. by rewrite lookup_empty.
Qed.

(** X5.  In every index file written by either export, [total_size] is
    the sum of element count times byte-width over the parameters
    without "lora" in their name, adapter weights or not in the model. *)
Theorem index_total_over_retained (m : model) (tok : tokenizer) (a : args)
    (sub_folder : string) :
  let total := sum_bytes (retained (named_parameters (model_to_save m))) in
  Forall (total_size_is total)
    (written_indexes (trace (save_hf_format m tok a sub_folder))) /\
  Forall (total_size_is total)
    (written_indexes (trace (save_zero_three_model m tok a sub_folder))).
Proof.
  intros total. apply written_index_origin. intros wm t Hloop.
  apply index_loop_ok in Hloop as [Hsum _].
  exists t. split; [apply lookup_singleton_eq |].
  rewrite Hsum. apply Qplus_0_l.
Qed.

Lemma get_dtype_size_int (d : dtype) (sz : pynum) :
  get_dtype_size d = Ok sz -> is_py_int sz = negb (is_torch_bool d).
Proof.
  destruct d as [|repr]; simpl; [by intros [= <-] |].
  destruct (re_search _); [by intros [= <-] | done].
Qed.

Lemma index_loop_kind (l : list (string * param)) :
  forall (wm wm' : gmap string string) (t t' : pynum),
    outcome (for_each index_body (wm, t) l) = Ok (wm', t') ->
    is_py_int t' =
    is_py_int t &&
    forallb (fun item => negb (is_torch_bool (p_dtype item.2))) (retained l).
Proof.
  induction l as [|[name p] l IH]; intros wm wm' t t'.
  - simpl. intros [= <- <-]. by rewrite andb_true_r.
  - cbn [for_each retained List.filter fst]. destruct (is_lora name) eqn:Hl.
    + rewrite index_body_lora by done. run_monad.
      rewrite for_each_index_pure. destruct (outcome _) as [[wm1 t1]|e] eqn:Hr;
        simpl; [|done].
      intros [= <- <-]. by apply IH in Hr.
    + rewrite index_body_kept by done.
      destruct (get_dtype_size (p_dtype p)) as [sz|e] eqn:Hsz; run_monad; [|done].
      rewrite for_each_index_pure. destruct (outcome _) as [[wm1 t1]|e] eqn:Hr;
        simpl; [|done].
      intros [= <- <-]. apply IH in Hr. rewrite Hr.
      apply get_dtype_size_int in Hsz. rewrite <- Hsz.
      fold (retained l). rewrite andb_assoc. f_equal.
      by destruct t, sz.
Qed.

(** X6.  The [total_size] written is a Python [int] exactly when no
    parameter without "lora" in its name has dtype [torch.bool]; one
    such parameter makes it a [float]. *)
Theorem index_total_size_kind (m : model) (tok : tokenizer) (a : args)
    (sub_folder : string) :
  let int_iff_no_bool idx :=
    exists t,
      metadata idx !! "total_size" = Some t /\
      is_py_int t =
      forallb (fun item => negb (is_torch_bool (p_dtype item.2)))
        (retained (named_parameters (model_to_save m))) in
  Forall int_iff_no_bool
    (written_indexes (trace (save_hf_format m tok a sub_folder))) /\
  Forall int_iff_no_bool
    (written_indexes (trace (save_zero_three_model m tok a sub_folder))).
Proof.
  intros int_iff_no_bool. apply written_index_origin. intros wm t Hloop.
  exists t. split; [apply lookup_singleton_eq |].
  by apply index_loop_kind in Hloop.
Qed.

(** X7.  When every parameter without "lora" in its name has a dtype
    that [get_dtype_size] accepts, [save_hf_format] returns normally
    having written exactly one weights file and one index, and so does
    [save_zero_three_model] on rank 0. *)
Theorem exports_complete (m : model) (tok : tokenizer) (a : args)
    (sub_folder : string) :
  forallb (fun item => is_sized item.2)
    (retained (named_parameters (model_to_save m))) = true ->
  (outcome (save_hf_format m tok a sub_folder) = Ok tt /\
   length (saved_dicts (trace (save_hf_format m tok a sub_folder))) = 1%nat /\
   length (written_indexes (trace (save_hf_format m tok a sub_folder))) = 1%nat) /\
  (global_rank a = 0 ->
   outcome (save_zero_three_model m tok a sub_folder) = Ok tt /\
   length (saved_dicts (trace (save_zero_three_model m tok a sub_folder)))
   = 1%nat /\
   length (written_indexes (trace (save_zero_three_model m tok a sub_folder)))
   = 1%nat).
Proof.
  intros Hsized.
  destruct (index_loop_defined (named_parameters (model_to_save m))
              (∅, PyInt 0) Hsized) as [[wm t] Hloop].
  pose proof (gather_events_only true (named_parameters (model_to_save m)))
    as (Hgi & Hgd & _).
  split.
  - by rewrite save_hf_format_run, Hloop.
  - intros Hrank0. z3_cases m tok a sub_folder; [| |done].
    + cbv zeta in Hrun. rewrite Hloop in Hrun. destruct Hrun as (osd & -> & _).
      unfold trace, outcome. cbn [fst snd].
      by rewrite !written_indexes_app, !saved_dicts_app, Hgi, Hgd.
    + by rewrite Hrun, Hloop.
Qed.

Lemma exports_complete_witness :
  outcome (save_zero_three_model (Bare sharded_net) sample_tokenizer
             (sample_args 0 3) "") = Ok tt /\
  length (saved_dicts
            (trace (save_zero_three_model (Bare sharded_net) sample_tokenizer
                      (sample_args 0 3) ""))) = 1%nat /\
  length (written_indexes
            (trace (save_zero_three_model (Bare sharded_net) sample_tokenizer
                      (sample_args 0 3) ""))) = 1%nat.
Proof.
  apply (exports_complete (Bare sharded_net) sample_tokenizer
           (sample_args 0 3) "").
  - vm_compute. reflexivity.
  - reflexivity.
Defined.

(** ** Aborted exports *)

Lemma get_dtype_size_raises (d : dtype) (e : exn) :
  get_dtype_size d = Raise e ->
  exists repr, d = dtype_named repr /\ e = invalid_dtype repr.
Proof.
  destruct d as [|repr]; simpl; [done |].
  destruct (re_search _); [done |]. intros [= <-]. by exists repr.
Qed.

(** The index loop raises at the first retained parameter whose dtype
    is not accepted. *)
Lemma index_loop_raises (l : list (string * param)) :
  forall st : gmap string string * pynum,
    forallb (fun item => is_sized item.2) (retained l) = false ->
    exists name p repr,
      In (name, p) (retained l) /\ p_dtype p = dtype_named repr /\
      outcome (for_each index_body st l) = Raise (invalid_dtype repr).
Proof.
  induction l as [|[name p] l IH]; intros [wm t]; [done |].
  cbn [for_each retained List.filter fst]. destruct (is_lora name) eqn:Hl.
  - rewrite index_body_lora by done. run_monad. intros Hs.
    destruct (IH (wm, t) Hs) as (n' & p' & repr & Hin & Hd & Hr).
    exists n', p', repr. split_and!; [done | done |].
    rewrite for_each_index_pure, Hr. done.
  - rewrite index_body_kept by done. cbn [negb forallb snd].
    unfold is_sized at 1.
    destruct (get_dtype_size (p_dtype p)) as [sz|e] eqn:Hsz; run_monad.
    + intros Hs.
      edestruct IH as (n' & p' & repr & Hin & Hd & Hr); [exact Hs |].
      exists n', p', repr. split_and!; [by right | done |].
      rewrite for_each_index_pure, Hr. done.
    + intros _. apply get_dtype_size_raises in Hsz as (repr & Hd & ->).
      exists name, p, repr. split_and!; [by left | done | done].
Qed.

(** X8.  When some parameter without "lora" in its name has a dtype
    that [get_dtype_size] rejects, [save_hf_format] raises the
    [ValueError] of such a parameter after the weights file,
    [config.json] and the tokenizer have been written: the directory is
    left without index file and without the copied files. *)
Theorem save_hf_format_abort (m : model) (tok : tokenizer) (a : args)
    (sub_folder : string) :
  forallb (fun item => is_sized item.2)
    (retained (named_parameters (model_to_save m))) = false ->
  exists name p repr,
    In (name, p) (retained (named_parameters (model_to_save m))) /\
    p_dtype p = dtype_named repr /\
    outcome (save_hf_format m tok a sub_folder) = Raise (invalid_dtype repr) /\
    map call_of (trace (save_hf_format m tok a sub_folder)) =
    [makedirs; torch_save; config_to_json_file; tokenizer_save_pretrained].
Proof.
  intros Hs.
  destruct (index_loop_raises _ (∅, PyInt 0) Hs) as (name & p & repr & Hin & Hd & Hr).
  exists name, p, repr. rewrite save_hf_format_run, Hr. by split_and!.
Qed.

Lemma save_hf_format_abort_witness :
  exists name p repr,
    In (name, p) (retained (named_parameters (model_to_save (Bare fp8_net)))) /\
    p_dtype p = dtype_named repr /\
    outcome (save_hf_format (Bare fp8_net) sample_tokenizer (sample_args 0 0) "")
    = Raise (invalid_dtype repr) /\
    map call_of
      (trace (save_hf_format (Bare fp8_net) sample_tokenizer (sample_args 0 0) ""))
    = [makedirs; torch_save; config_to_json_file; tokenizer_save_pretrained].
Proof.
  apply (save_hf_format_abort (Bare fp8_net) sample_tokenizer (sample_args 0 0) "").
  vm_compute. reflexivity.
Defined.

(** X9.  In the same situation [save_zero_three_model] raises on rank
    0 before any index, tokenizer file or copy: outside stage 3 the
    weights file is already written, in stage 3 no file is written at
    all, only directories made and gathers run. *)
Theorem save_zero_three_model_abort (m : model) (tok : tokenizer) (a : args)
    (sub_folder : string) :
  global_rank a = 0 ->
  forallb (fun item => is_sized item.2)
    (retained (named_parameters (model_to_save m))) = false ->
  let run := save_zero_three_model m tok a sub_folder in
  (exists repr, outcome run = Raise (invalid_dtype repr)) /\
  written_indexes (trace run) = [] /\
  List.filter (fun e => negb (is_gather e)) (trace run) =
  z3_dirs a sub_folder ++
  if bool_decide (zero_stage a = 3) then []
  else [TorchSave (state_dict (model_to_save m))
          (path_join (path_join (output_dir a) sub_folder) WEIGHTS_NAME)].
Proof.
  intros Hrank0 Hs run. subst run.
  destruct (index_loop_raises _ (∅, PyInt 0) Hs) as (name & p & repr & _ & _ & Hr).
  z3_cases m tok a sub_folder; [| |done].
  - cbv zeta in Hrun. rewrite Hr in Hrun. destruct Hrun as (tr & -> & Htr).
    unfold trace, outcome. cbn [fst snd].
    rewrite bool_decide_eq_true_2 by done.
    rewrite written_indexes_app, List.filter_app.
    pose proof (gather_only tr Htr) as (-> & _).
    assert (List.filter (fun e => negb (is_gather e)) tr = []) as ->.
    { clear -Htr. induction tr as [|e tr IH]; [done |]. simpl in *.
      apply andb_true_iff in Htr as [-> Htr]. by apply IH. }
    split_and!; [by exists repr | done | done].
  - rewrite Hrun, Hr. rewrite bool_decide_eq_false_2 by done.
    split_and!; [by exists repr | done | done].
Qed.

Lemma save_zero_three_model_abort_witness :
  let run :=
    save_zero_three_model (Bare fp8_net) sample_tokenizer (sample_args 0 3) "" in
  (exists repr, outcome run = Raise (invalid_dtype repr)) /\
  written_indexes (trace run) = [] /\
  List.filter (fun e => negb (is_gather e)) (trace run) =
  z3_dirs (sample_args 0 3) "" ++
  if bool_decide (zero_stage (sample_args 0 3) = 3) then []
  else [TorchSave (state_dict (model_to_save (Bare fp8_net)))
          (path_join (path_join (output_dir (sample_args 0 3)) "") WEIGHTS_NAME)].
Proof.
  apply (save_zero_three_model_abort (Bare fp8_net) sample_tokenizer
           (sample_args 0 3) "").
  - reflexivity.
  - vm_compute. reflexivity.
Defined.

(** ** The weights file *)

(** X10.  [save_hf_format] always writes one weights file, before any
    size accounting; it holds the entries of [state_dict()] whose key
    does not contain "lora", with their values, and no other key. *)
Theorem save_hf_format_weights (m : model) (tok : tokenizer) (a : args)
    (sub_folder : string) :
  exists d : gmap string tensor,
    saved_dicts (trace (save_hf_format m tok a sub_folder)) = [d] /\
    forall k : string,
      d !! k = if is_lora k then None else state_dict (model_to_save m) !! k.
Proof.
  exists (drop_lora (state_dict (model_to_save m))). split.
  - rewrite save_hf_format_run. by destruct (outcome _) as [[wm t]|e].
  - apply drop_lora_lookup.
Qed.

Lemma collected_frame (l : list (string * param)) :
  forall (osd : gmap string tensor) (k : string),
    k ∉ map fst (retained l) -> collected l osd !! k = osd !! k.
Proof.
  induction l as [|[name p] l IH]; intros osd k Hk; [done |].
  cbn [collected fold_left fst snd]. fold (collected l).
  cbn [retained List.filter fst] in Hk. fold (retained l) in Hk.
  destruct (is_lora name) eqn:Hl; simpl in Hk.
  - by apply IH.
  - apply not_elem_of_cons in Hk as [Hne Hk].
    rewrite IH by done. by rewrite lookup_insert_ne.
Qed.

Lemma collected_keys (l : list (string * param)) :
  forall (osd : gmap string tensor) (k : string),
    is_Some (collected l osd !! k) <->
    k ∈ map fst (retained l) \/ is_Some (osd !! k).
Proof.
  induction l as [|[name p] l IH]; intros osd k.
  - simpl. split; [by right | intros [Hk | Hk]; [by apply elem_of_nil in Hk | done]].
  - cbn [collected fold_left fst snd]. fold (collected l).
    cbn [retained List.filter fst]. fold (retained l).
    rewrite IH. destruct (is_lora name) eqn:Hl; simpl; [done |].
    rewrite elem_of_cons. destruct (decide (k = name)) as [-> | Hne].
    + rewrite lookup_insert_eq. split; [intros _; by left; left |].
      intros _. right. by eexists.
    + rewrite lookup_insert_ne by done. split.
      * intros [Hk | Hk]; [left; by right | by right].
      * intros [[Hk | Hk] | Hk]; [done | by left | by right].
Qed.

Lemma collected_on_cpu (l : list (string * param)) :
  forall osd : gmap string tensor,
    (forall k x, osd !! k = Some x -> t_device x = "cpu") ->
    forall k x, collected l osd !! k = Some x -> t_device x = "cpu".
Proof.
  induction l as [|[name p] l IH]; intros osd Hosd; [done |].
  cbn [collected fold_left fst snd]. fold (collected l).
  apply IH. destruct (is_lora name); [done |].
  intros k x. destruct (decide (k = name)) as [-> | Hne].
  - rewrite lookup_insert_eq. intros [= <-]. unfold host_copy.
    by destruct (has_ds_id p).
  - rewrite lookup_insert_ne by done. apply Hosd.
Qed.

Lemma collected_unique (l : list (string * param)) :
  forall (osd : gmap string tensor) (k : string) (p : param),
    NoDup (map fst l) -> In (k, p) (retained l) ->
    collected l osd !! k = Some (host_copy p).
Proof.
  induction l as [|[name q] l IH]; intros osd k p Hnd Hin; [done |].
  cbn [map fst] in Hnd. apply NoDup_cons in Hnd as [Hfresh Hnd].
  cbn [collected fold_left fst snd]. fold (collected l).
  cbn [retained List.filter fst] in Hin. fold (retained l) in Hin.
  destruct (is_lora name) eqn:Hl; simpl in Hin.
  - by apply IH.
  - destruct Hin as [[= -> ->] | Hin]; [|by apply IH].
    rewrite collected_frame.
    + apply lookup_insert_eq.
    + intros Hk. apply Hfresh.
      apply list_elem_of_In, in_map_iff in Hk as ([k' p'] & Hk' & Hk).
      apply filter_In in Hk as [Hk _]. simpl in Hk'. subst k'.
      apply list_elem_of_In, in_map_iff. by exists (k, p').
Qed.

(** On rank 0 the dict built by the gather loop is [collected]. *)
Lemma gather_loop_collects (a : args) (l : list (string * param)) :
  global_rank a = 0 ->
  forall osd wm t osd' wm' t' tr,
    for_each (fun st '(k, v) => gather_step a st k v) (osd, wm, t) l =
    (Ok (osd', wm', t'), tr) ->
    osd' = collected l osd.
Proof.
  intros Hrank. induction l as [|[k v] l IH]; intros osd wm t osd' wm' t' tr.
  - simpl. by intros [= <- _ _ _].
  - cbn [for_each collected fold_left fst snd]. fold (collected l).
    rewrite gather_step_rank0 by done.
    destruct (outcome (index_body (wm, t) (k, v))) as [[wm1 t1]|e];
      run_monad; [|done].
    destruct (for_each _ _ l) as [[[[osd2 wm2] t2]|e] tr2] eqn:Hrest; [|done].
    intros [= <- _ _ _]. by apply IH in Hrest.
Qed.

Lemma save_zero_three_model_partitioned_saved (m : model) (tok : tokenizer)
    (a : args) (sub_folder : string) :
  global_rank a = 0 -> zero_stage a = 3 ->
  saved_dicts (trace (save_zero_three_model m tok a sub_folder)) =
  match outcome (for_each index_body (∅, PyInt 0)
                   (named_parameters (model_to_save m))) with
  | Ok _ => [collected (named_parameters (model_to_save m)) ∅]
  | Raise _ => []
  end.
Proof.
  intros Hrank Hstage. unfold save_zero_three_model.
  pose proof (gather_loop_rank0 a (named_parameters (model_to_save m)) Hrank
                ∅ ∅ (PyInt 0)) as Hloop.
  pose proof (gather_events_only true (named_parameters (model_to_save m)))
    as (_ & Hgd & _).
  rewrite (bool_decide_eq_true_2 (global_rank a = 0)) by done.
  rewrite (bool_decide_eq_true_2 (zero_stage a = 3)) in * by done.
  destruct (outcome _) as [[wm t]|e].
  - destruct Hloop as (osd & Heq & _).
    pose proof (gather_loop_collects a _ Hrank _ _ _ _ _ _ _ Heq) as ->.
    rewrite Heq. run_monad. unfold trace. cbn [snd].
    change (saved_dicts
              ([Makedirs (output_dir a);
                Makedirs (path_join (output_dir a) sub_folder)] ++
               (gather_events true (named_parameters (model_to_save m)) ++
                [TorchSave (collected (named_parameters (model_to_save m)) ∅)
                   (path_join (path_join (output_dir a) sub_folder) WEIGHTS_NAME)])
               ++ [index_event (path_join (output_dir a) sub_folder) wm t;
                   TokenizerSavePretrained tok (path_join (output_dir a) sub_folder)]
               ++ copies a (path_join (output_dir a) sub_folder))
            = [collected (named_parameters (model_to_save m)) ∅]).
    by rewrite !saved_dicts_app, Hgd.
  - destruct Hloop as (tr & Heq & Htr). rewrite Heq. run_monad.
    unfold trace. cbn [snd].
    change (saved_dicts
              ([Makedirs (output_dir a);
                Makedirs (path_join (output_dir a) sub_folder)] ++ tr) = []).
    apply gather_only in Htr as (_ & Htr & _).
    by rewrite saved_dicts_app, Htr.
Qed.

(** X11.  The weights file of a partitioned export (rank 0, stage 3)
    has as keys exactly the names of the parameters without "lora", the
    keys of the index; every tensor in it is a CPU tensor; and when
    parameter names are distinct each key holds the host copy of its
    parameter, which for a partitioned parameter that is not available
    locally is the copy of the gathered full tensor. *)
Theorem partitioned_weights_file (m : model) (tok : tokenizer) (a : args)
    (sub_folder : string) :
  global_rank a = 0 ->
  zero_stage a = 3 ->
  let l := named_parameters (model_to_save m) in
  Forall
    (fun d : gmap string tensor =>
       (forall k, is_Some (d !! k) <-> k ∈ map fst (retained l)) /\
       (forall k x, d !! k = Some x -> t_device x = "cpu") /\
       (NoDup (map fst l) ->
        forall k p, In (k, p) (retained l) ->
          d !! k = Some (host_copy p) /\
          (forall ds, p_ds p = Some ds -> ds_status ds = NOT_AVAILABLE ->
                      host_copy p = cpu (ds_full ds))))
    (saved_dicts (trace (save_zero_three_model m tok a sub_folder))).
Proof.
  intros Hrank Hstage l.
  rewrite save_zero_three_model_partitioned_saved by done.
  destruct (outcome _); [|constructor].
  constructor; [|constructor]. split_and!.
  - intros k. rewrite collected_keys. split; [|by left].
    intros [Hk | [x Hx]]; [done | by rewrite lookup_empty in Hx].
  - apply collected_on_cpu. intros k x. by rewrite lookup_empty.
  - intros Hnd k p Hin. split; [by apply collected_unique |].
    intros ds Hds Hst. unfold host_copy, has_ds_id, data_within.
    unfold _z3_params_to_fetch. simpl. by rewrite Hds, Hst.
Qed.

Lemma partitioned_weights_file_witness :
  let l := named_parameters (model_to_save (Bare sharded_net)) in
  Forall
    (fun d : gmap string tensor =>
       (forall k, is_Some (d !! k) <-> k ∈ map fst (retained l)) /\
       (forall k x, d !! k = Some x -> t_device x = "cpu") /\
       (NoDup (map fst l) ->
        forall k p, In (k, p) (retained l) ->
          d !! k = Some (host_copy p) /\
          (forall ds, p_ds p = Some ds -> ds_status ds = NOT_AVAILABLE ->
                      host_copy p = cpu (ds_full ds))))
    (saved_dicts
       (trace (save_zero_three_model (Bare sharded_net) sample_tokenizer
                 (sample_args 0 3) ""))).
Proof.
  apply (partitioned_weights_file (Bare sharded_net) sample_tokenizer
           (sample_args 0 3) ""); reflexivity.
Defined.

(** ** Ranks other than 0, and an absolute [sub_folder] *)

Lemma filter_fs_write_gathers (enabled : bool) (l : list (string * param)) :
  List.filter fs_write (gather_events enabled l) = [].
Proof.
  pose proof (forallb_is_gather_events enabled l) as H.
  induction (gather_events enabled l) as [|e tr IH]; [done |]. simpl in *.
  apply andb_true_iff in H as [He Htr]. unfold fs_write at 1.
  rewrite He. by apply IH.
Qed.

(** X12.  On a rank other than 0, in either branch,
    [save_zero_three_model] returns normally and its only effects on
    the file system are the two [os.makedirs] calls: no weights file,
    no index, no tokenizer file, no copy. *)
Theorem save_zero_three_model_other_rank (m : model) (tok : tokenizer)
    (a : args) (sub_folder : string) :
  global_rank a <> 0 ->
  outcome (save_zero_three_model m tok a sub_folder) = Ok tt /\
  List.filter fs_write (trace (save_zero_three_model m tok a sub_folder)) =
  [Makedirs (output_dir a); Makedirs (path_join (output_dir a) sub_folder)].
Proof.
  intros Hrank. rewrite save_zero_three_model_run_other by done.
  split; [done |]. unfold trace. cbn [snd]. rewrite List.filter_app.
  case_bool_decide; [|done]. by rewrite filter_fs_write_gathers.
Qed.

Lemma save_zero_three_model_other_rank_witness :
  outcome (save_zero_three_model (Bare sharded_net) sample_tokenizer
             (sample_args 5 3) "ckpt") = Ok tt /\
  List.filter fs_write
    (trace (save_zero_three_model (Bare sharded_net) sample_tokenizer
              (sample_args 5 3) "ckpt")) =
  [Makedirs "out"; Makedirs "out/ckpt"].
Proof.
  apply (save_zero_three_model_other_rank (Bare sharded_net) sample_tokenizer
           (sample_args 5 3) "ckpt").
  discriminate.
Defined.

Lemma path_join_absolute (a b : string) :
  startswith "/" b = true -> path_join a b = b.
Proof. unfold path_join. by intros ->. Qed.

(** X13.  With an absolute [sub_folder], [os.path.join] discards
    [output_dir]: [save_hf_format] writes everything under [sub_folder]
    itself, whatever [output_dir] is, and [save_zero_three_model] uses
    [output_dir] for its first [os.makedirs] only. *)
Theorem absolute_sub_folder_overrides_output_dir (m : model) (tok : tokenizer)
    (a : args) (sub_folder other_dir : string) :
  startswith "/" sub_folder = true ->
  let a' := {| output_dir := other_dir;
               model_name_or_path := model_name_or_path a;
               global_rank := global_rank a;
               zero_stage := zero_stage a |} in
  path_join (output_dir a) sub_folder = sub_folder /\
  save_hf_format m tok a' sub_folder = save_hf_format m tok a sub_folder /\
  outcome (save_zero_three_model m tok a' sub_folder) =
  outcome (save_zero_three_model m tok a sub_folder) /\
  (exists tr,
      trace (save_zero_three_model m tok a sub_folder) =
      Makedirs (output_dir a) :: tr /\
      trace (save_zero_three_model m tok a' sub_folder) =
      Makedirs other_dir :: tr).
Proof.
  intros Habs a'. subst a'. split_and!.
  - by apply path_join_absolute.
  - unfold save_hf_format. cbn [output_dir model_name_or_path].
    by rewrite !(path_join_absolute _ sub_folder).
  - unfold save_zero_three_model.
    cbn [output_dir model_name_or_path global_rank zero_stage].
    rewrite !(path_join_absolute _ sub_folder) by done.
    unfold mbind at 1 3, M_bind, bind, emit.
    by destruct (_ ≫= _) as [r tr].
  - unfold save_zero_three_model.
    cbn [output_dir model_name_or_path global_rank zero_stage].
    rewrite !(path_join_absolute _ sub_folder) by done.
    unfold mbind at 1 3, M_bind, bind, emit.
    destruct (_ ≫= _) as [r tr]. by exists tr.
Qed.

Lemma absolute_sub_folder_overrides_output_dir_witness :
  path_join "out" "/data/ckpt" = "/data/ckpt" /\
  save_hf_format (Bare plain_net) sample_tokenizer
    {| output_dir := "elsewhere"; model_name_or_path := "base";
       global_rank := 0; zero_stage := 0 |} "/data/ckpt" =
  save_hf_format (Bare plain_net) sample_tokenizer (sample_args 0 0) "/data/ckpt".
Proof.
  pose proof (absolute_sub_folder_overrides_output_dir (Bare plain_net)
                sample_tokenizer (sample_args 0 0) "/data/ckpt" "elsewhere"
                eq_refl) as (H1 & H2 & _).
  split; [exact H1 | exact H2].
Defined.

Lemma append_nil_r (s : string) : s +:+ "" = s.
Proof.
  induction s as [|c s IH]; [done |]. by rewrite append_cons_l, IH.
Qed.

Lemma append_assoc (a b c : string) : (a +:+ b) +:+ c = a +:+ b +:+ c.
Proof.
  induction a as [|x a IH]; [done |]. by rewrite !append_cons_l, IH.
Qed.

(** ** [total_size] is not negative *)

Lemma byte_width_nonneg (d : dtype) : (0 <= byte_width d)%Q.
Proof.
  unfold byte_width. destruct d as [|repr]; simpl; [done |].
  destruct (re_search _) as [g|] eqn:Hs; [|done].
  apply re_search_inv in Hs as (_ & _ & _ & _ & _ & _ & Hg & _).
  apply int_of_digits_nonneg in Hg.
  assert (0 <= int_of_digits g / 8) as Hz by (apply Z.div_pos; lia).
  cbn [num_val]. unfold Qle. simpl. lia.
Qed.

Lemma sum_bytes_nonneg (l : list (string * param)) :
  Forall (fun item => 0 <= p_numel item.2) l -> (0 <= sum_bytes l)%Q.
Proof.
  induction 1 as [|[name p] l Hp _ IH]; [done |]. simpl in *.
  apply (Qle_trans _ (0 + 0)); [done |].
  apply Qplus_le_compat; [|done]. unfold param_bytes.
  apply Qmult_le_0_compat; [|apply byte_width_nonneg].
  unfold Qle. simpl. lia.
Qed.

(** X15.  As element counts are not negative, neither is the
    [total_size] of any index file written by either export. *)
Theorem index_total_size_nonneg (m : model) (tok : tokenizer) (a : args)
    (sub_folder : string) :
  Forall (fun item => 0 <= p_numel item.2)
    (retained (named_parameters (model_to_save m))) ->
  let nonneg idx :=
    exists t, metadata idx !! "total_size" = Some t /\ (0 <= num_val t)%Q in
  Forall nonneg (written_indexes (trace (save_hf_format m tok a sub_folder))) /\
  Forall nonneg
    (written_indexes (trace (save_zero_three_model m tok a sub_folder))).
Proof.
  intros Hnumel nonneg. apply written_index_origin. intros wm t Hloop.
  apply index_loop_ok in Hloop as [Hsum _].
  exists t. split; [apply lookup_singleton_eq |].
  rewrite Hsum. cbn [num_val]. rewrite Qplus_0_l. by apply sum_bytes_nonneg.
Qed.

Lemma index_total_size_nonneg_witness :
  let nonneg idx :=
    exists t, metadata idx !! "total_size" = Some t /\ (0 <= num_val t)%Q in
  Forall nonneg
    (written_indexes
       (trace (save_hf_format (Bare lora_net) sample_tokenizer
                 (sample_args 0 0) ""))) /\
  Forall nonneg
    (written_indexes
       (trace (save_zero_three_model (Bare lora_net) sample_tokenizer
                 (sample_args 0 0) ""))).
Proof.
  apply (index_total_size_nonneg (Bare lora_net) sample_tokenizer
           (sample_args 0 0) "").
  repeat constructor; discriminate.
Defined.

(** ** [get_optimizer_grouped_parameters]: the groups as a partition *)

Lemma filter_split_permutation {A : Type} (f g : A -> bool) (l : list A) :
  List.filter (fun x => negb (f x) && g x) l ++
  List.filter (fun x => f x && g x) l ≡ₚ List.filter g l.
Proof.
  induction l as [|x l IH]; [done |]. simpl.
  destruct (f x), (g x); simpl; try done.
  - rewrite <- Permutation_middle. by constructor.
  - by constructor.
Qed.

Lemma filter_sublist {A : Type} (f : A -> bool) (l : list A) :
  sublist (List.filter f l) l.
Proof.
  induction l as [|x l IH]; [done |]. simpl.
  destruct (f x); [by apply sublist_skip | by apply sublist_cons].
Qed.

Lemma optimizer_groups_shape (net : network) (wd : pynum)
    (no_decay_name_list : list string) :
  get_optimizer_grouped_parameters net wd no_decay_name_list =
  [ {| params :=
         map snd
           (List.filter
              (fun item => negb (any_in no_decay_name_list item.1)
                           && requires_grad item.2)
              (named_parameters net));
       weight_decay := wd |};
    {| params :=
         map snd
           (List.filter
              (fun item => any_in no_decay_name_list item.1
                           && requires_grad item.2)
              (named_parameters net));
       weight_decay := PyFloat 0 |} ].
Proof.
  unfold get_optimizer_grouped_parameters.
  rewrite (List.filter_ext
             (fun '(n, p) => negb (any_in no_decay_name_list n) && requires_grad p)
             (fun item => negb (any_in no_decay_name_list item.1)
                          && requires_grad item.2))
    by (by intros [n p]).
  rewrite (List.filter_ext
             (fun '(n, p) => any_in no_decay_name_list n && requires_grad p)
             (fun item => any_in no_decay_name_list item.1
                          && requires_grad item.2))
    by (by intros [n p]).
  reflexivity.
Qed.

(** X18.  The two groups split the parameters that require gradients:
    together they hold each of them exactly once, and each group lists
    its parameters in the order of [named_parameters]. *)
Theorem optimizer_groups_partition (net : network) (wd : pynum)
    (no_decay_name_list : list string) :
  exists decay no_decay : param_group,
    get_optimizer_grouped_parameters net wd no_decay_name_list =
    [decay; no_decay] /\
    params decay ++ params no_decay ≡ₚ trainable (named_parameters net) /\
    (length (params decay) + length (params no_decay) =
     length (trainable (named_parameters net)))%nat /\
    sublist (params decay) (map snd (named_parameters net)) /\
    sublist (params no_decay) (map snd (named_parameters net)).
Proof.
  rewrite optimizer_groups_shape. eexists _, _. split; [reflexivity |].
  cbn [params].
  assert (forall (f : string * param -> bool),
             sublist (map snd (List.filter f (named_parameters net)))
               (map snd (named_parameters net))) as Hsub.
  { intros f. apply (fmap_sublist snd), filter_sublist. }
  assert (map snd
            (List.filter
               (fun item => negb (any_in no_decay_name_list item.1)
                            && requires_grad item.2) (named_parameters net)) ++
          map snd
            (List.filter
               (fun item => any_in no_decay_name_list item.1
                            && requires_grad item.2) (named_parameters net))
          ≡ₚ trainable (named_parameters net)) as Hperm.
  { unfold trainable. rewrite <- map_app. apply Permutation_map.
    apply (filter_split_permutation
             (fun item => any_in no_decay_name_list item.1)
             (fun item => requires_grad item.2)). }
  split_and!; [done | | done | done].
  rewrite <- length_app. by apply Permutation_length.
Qed.

Lemma str_in_empty (n : string) : str_in "" n = true.
Proof. by destruct n. Qed.

(** X19.  With an empty no-decay list every parameter that requires
    gradients is in the decay group and the second group is empty; with
    the empty string among the substrings, which every name contains,
    it is the other way round. *)
Theorem optimizer_groups_edge (net : network) (wd : pynum)
    (no_decay_name_list : list string) :
  get_optimizer_grouped_parameters net wd [] =
  [ {| params := trainable (named_parameters net); weight_decay := wd |};
    {| params := []; weight_decay := PyFloat 0 |} ] /\
  (In "" no_decay_name_list ->
   get_optimizer_grouped_parameters net wd no_decay_name_list =
   [ {| params := []; weight_decay := wd |};
     {| params := trainable (named_parameters net);
        weight_decay := PyFloat 0 |} ]).
Proof.
  split.
  - rewrite optimizer_groups_shape. unfold trainable. simpl.
    assert (List.filter (fun _ : string * param => false) (named_parameters net)
            = []) as ->; [|done].
    induction (named_parameters net) as [|x l IH]; [done | by simpl].
  - intros Hin. rewrite optimizer_groups_shape. unfold trainable.
    assert (forall n, any_in no_decay_name_list n = true) as Hany.
    { intros n. apply any_in_true. exists "". split; [done | apply str_in_empty]. }
    assert (List.filter
              (fun item : string * param =>
                 negb (any_in no_decay_name_list item.1) && requires_grad item.2)
              (named_parameters net) = []) as ->.
    { induction (named_parameters net) as [|x l IH]; [done |].
      simpl. by rewrite Hany. }
    rewrite (List.filter_ext
               (fun item : string * param =>
                  any_in no_decay_name_list item.1 && requires_grad item.2)
               (fun item => requires_grad item.2)); [done |].
    intros x. by rewrite Hany.
Qed.

Lemma optimizer_groups_edge_witness :
  get_optimizer_grouped_parameters plain_net (PyFloat (1 # 10)) ["bias"; ""] =
  [ {| params := []; weight_decay := PyFloat (1 # 10) |};
    {| params := trainable (named_parameters plain_net);
       weight_decay := PyFloat 0 |} ].
Proof.
  apply (optimizer_groups_edge plain_net (PyFloat (1 # 10)) ["bias"; ""]).
  right. by left.
Defined.

(** ** The default [sub_folder] *)

Lemma endswith_sep_slash (d : string) : endswith_sep (d +:+ "/") = true.
Proof.
  induction d as [|c d IH]; [done |]. rewrite append_cons_l.
  cbn [endswith_sep]. destruct (d +:+ "/") eqn:Hd; [by destruct d | done].
Qed.

Lemma path_join_empty_sub (d name : string) :
  startswith "/" name = false ->
  path_join (path_join d "") name = path_join d name.
Proof.
  intros Hrel. unfold path_join at 2. cbn [startswith].
  destruct (bool_decide (d = "") || endswith_sep d) eqn:Hd.
  - by rewrite append_nil_r.
  - apply orb_false_iff in Hd as [Hne Hsep].
    unfold path_join. rewrite Hrel, Hne, Hsep, endswith_sep_slash.
    rewrite orb_true_r. by rewrite !append_assoc.
Qed.

(** X20.  With the default [sub_folder] (the empty string)
    [save_hf_format] writes the weights file, [config.json] and the
    index directly in [output_dir]: the paths are those of joining
    [output_dir] with the file names, with no doubled separator. *)
Theorem save_hf_format_default_sub_folder (m : model) (tok : tokenizer)
    (a : args) :
  let tr := trace (save_hf_format m tok a "") in
  (forall name, startswith "/" name = false ->
                path_join (path_join (output_dir a) "") name =
                path_join (output_dir a) name) /\
  In (TorchSave (drop_lora (state_dict (model_to_save m)))
        (path_join (output_dir a) WEIGHTS_NAME)) tr /\
  In (ConfigToJsonFile (config (model_to_save m))
        (path_join (output_dir a) CONFIG_NAME)) tr /\
  Forall (fun e => match e with
                   | WriteIndexJson p _ => p = path_join (output_dir a) INDEX_NAME
                   | _ => True
                   end) tr.
Proof.
  intros tr. subst tr. rewrite save_hf_format_run. cbv zeta.
  unfold hf_prefix, index_event.
  rewrite !(path_join_empty_sub (output_dir a)) by done.
  split_and!.
  - intros name Hname. by apply path_join_empty_sub.
  - destruct (outcome _) as [[wm t]|e]; right; by left.
  - destruct (outcome _) as [[wm t]|e]; right; right; by left.
  - destruct (outcome _) as [[wm t]|e]; unfold trace; cbn [snd app];
      by repeat constructor.
Qed.

Lemma save_hf_format_default_sub_folder_witness :
  path_join (path_join "out" "") WEIGHTS_NAME = path_join "out" WEIGHTS_NAME.
Proof.
  apply (proj1 (save_hf_format_default_sub_folder (Bare plain_net)
                  sample_tokenizer (sample_args 0 0))).
  reflexivity.
Defined.

(** ** [get_all_reduce_mean] called again *)

Lemma get_all_reduce_mean_run {T : Type} (tsum : list T -> T)
    (tdiv : T -> Z -> T) (g : process_group) (tensor : nat)
    (store : gmap nat T) (v : T) :
  store !! tensor = Some v ->
  let total := tsum (lower_ranks g ++ v :: higher_ranks g) in
  let n := Z.of_nat (length (lower_ranks g) + 1 + length (higher_ranks g)) in
  let r := fresh (dom (<[tensor := total]> store)) in
  get_all_reduce_mean tsum tdiv (Some g) tensor store =
  Ok (r, <[r := tdiv total n]> (<[tensor := total]> store)) /\
  r <> tensor /\ store !! r = None.
Proof.
  intros Hv total n r. unfold get_all_reduce_mean, all_reduce, true_divide.
  rewrite Hv. cbn [get_world_size]. rewrite lookup_insert_eq.
  split; [done |].
  pose proof (is_fresh (dom (<[tensor := total]> store))) as Hfresh.
  fold r in Hfresh. rewrite dom_insert_L in Hfresh. split.
  - intros Heq. apply Hfresh. rewrite Heq. set_solver.
  - apply not_elem_of_dom. intros Hin. apply Hfresh. set_solver.
Qed.

(** X21.  The in-place sum carries over to a second call on the same
    tensor: the second call reduces the sum the first one left there,
    not the original value; it returns another new tensor and leaves
    the first result as it was. *)
Theorem get_all_reduce_mean_twice {T : Type} (tsum : list T -> T)
    (tdiv : T -> Z -> T) (g1 g2 : process_group) (tensor : nat)
    (store : gmap nat T) (v : T) :
  store !! tensor = Some v ->
  let total1 := tsum (lower_ranks g1 ++ v :: higher_ranks g1) in
  let n1 := Z.of_nat (length (lower_ranks g1) + 1 + length (higher_ranks g1)) in
  let total2 := tsum (lower_ranks g2 ++ total1 :: higher_ranks g2) in
  let n2 := Z.of_nat (length (lower_ranks g2) + 1 + length (higher_ranks g2)) in
  exists r1 s1 r2 s2,
    get_all_reduce_mean tsum tdiv (Some g1) tensor store = Ok (r1, s1) /\
    get_all_reduce_mean tsum tdiv (Some g2) tensor s1 = Ok (r2, s2) /\
    r1 <> r2 /\ r1 <> tensor /\ r2 <> tensor /\
    s2 !! tensor = Some total2 /\
    s2 !! r1 = Some (tdiv total1 n1) /\
    s2 !! r2 = Some (tdiv total2 n2).
Proof.
  intros Hv total1 n1 total2 n2.
  destruct (get_all_reduce_mean_run tsum tdiv g1 tensor store v Hv)
    as (Hrun1 & Hne1 & Hnone1).
  set (r1 := fresh (dom (<[tensor := total1]> store))) in *.
  set (s1 := <[r1 := tdiv total1 n1]> (<[tensor := total1]> store)) in *.
  assert (s1 !! tensor = Some total1) as Hv1.
  { unfold s1. rewrite lookup_insert_ne by done. apply lookup_insert_eq. }
  destruct (get_all_reduce_mean_run tsum tdiv g2 tensor s1 total1 Hv1)
    as (Hrun2 & Hne2 & Hnone2).
  set (r2 := fresh (dom (<[tensor := total2]> s1))) in *.
  assert (r1 <> r2) as Hne12.
  { intros Heq. assert (s1 !! r1 = None) as Habs by (rewrite Heq; exact Hnone2).
    unfold s1 in Habs. by rewrite lookup_insert_eq in Habs. }
  exists r1, s1, r2, (<[r2 := tdiv total2 n2]> (<[tensor := total2]> s1)).
  split_and!; try done.
  - rewrite lookup_insert_ne by done. apply lookup_insert_eq.
  - rewrite !lookup_insert_ne by done. unfold s1. apply lookup_insert_eq.
  - apply lookup_insert_eq.
Qed.

Lemma get_all_reduce_mean_twice_witness :
  exists r1 s1 r2 s2,
    get_all_reduce_mean sum_Z Z.div (Some sample_group) 7%nat {[7%nat := 5]}
    = Ok (r1, s1) /\
    get_all_reduce_mean sum_Z Z.div (Some sample_group) 7%nat s1 = Ok (r2, s2) /\
    r1 <> r2 /\ r1 <> 7%nat /\ r2 <> 7%nat /\
    s2 !! 7%nat = Some 13 /\
    s2 !! r1 = Some 3 /\
    s2 !! r2 = Some 4.
Proof.
  apply (get_all_reduce_mean_twice sum_Z Z.div sample_group sample_group 7%nat
           {[7%nat := 5]} 5).
  reflexivity.
Defined.


(** * The size accounting and the gathers, in full *)

(** ** C2: the total size of the index *)

(** What [get_dtype_size] returns is the whole bytes of the final
    number of the string form. *)
Lemma get_dtype_size_floor (d : dtype) (n : pynum) :
  get_dtype_size d = Ok n -> num_val n = floor_dtype_width d.
Proof.
  destruct d as [|repr]; simpl; [by intros [= <-] |].
  destruct (re_search _) as [g|] eqn:Hs; [|done]. intros [= <-].
  apply re_search_inv in Hs as (pre & c & tail & Hl & Hc & Hne & Hg & Htail).
  unfold trailing_bits. rewrite Hl, chomp_matched by done.
  replace (rev (pre ++ c :: g)) with (rev g ++ c :: rev pre).
  2:{ rewrite rev_app_distr. simpl. by rewrite <- app_assoc. }
  rewrite span_digits_run; [| | done].
  2:{ apply forall_digits_rev. by rewrite rev_involutive. }
  cbn [fst]. destruct (rev g) as [|x xs] eqn:Hrev.
  - exfalso. apply Hne. by rewrite <- (rev_involutive g), Hrev.
  - by rewrite <- Hrev, rev_involutive.
Qed.

Lemma index_loop_ok_sized (l : list (string * param))
    (st r : gmap string string * pynum) :
  outcome (for_each index_body st l) = Ok r ->
  forallb (fun item => is_sized item.2) (retained l) = true.
Proof.
  intros Hok.
  destruct (forallb (fun item => is_sized item.2) (retained l)) eqn:Hs; [done |].
  destruct (index_loop_raises l st Hs) as (? & ? & ? & _ & _ & Hr). congruence.
Qed.

Lemma sum_bytes_floor (l : list (string * param)) :
  forallb (fun item => is_sized item.2) l = true ->
  (sum_bytes l == sum_over floor_dtype_width l)%Q.
Proof.
  induction l as [|[name p] l IH]; [done |]. simpl.
  rewrite andb_true_iff. intros [Hp Hl]. rewrite IH by done.
  unfold param_bytes, byte_width, is_sized in *. simpl.
  destruct (get_dtype_size (p_dtype p)) as [n|e] eqn:Hn; [|done].
  by rewrite (get_dtype_size_floor _ _ Hn).
Qed.

Lemma floor_width_aligned (d : dtype) :
  byte_aligned d = true -> (floor_dtype_width d == spec_dtype_width d)%Q.
Proof.
  destruct d as [|repr]; simpl; [done |].
  destruct (trailing_bits repr) as [n|]; [|done]. rewrite Z.eqb_eq.
  intros Hmod. unfold spec_byte_width.
  apply Z.div_exact in Hmod; [|lia].
  rewrite Hmod at 2. rewrite inject_Z_mult. field.
Qed.

Lemma sum_over_aligned (l : list (string * param)) :
  forallb (fun item => byte_aligned (p_dtype item.2)) l = true ->
  (sum_over floor_dtype_width l == sum_over spec_dtype_width l)%Q.
Proof.
  induction l as [|[name p] l IH]; [done |]. simpl.
  rewrite andb_true_iff. intros [Hp Hl].
  by rewrite IH, (floor_width_aligned _ Hp).
Qed.

(** C2, as stated, fails.  [uint4_net] has no "lora" in its names; its
    one parameter has 8 elements of a 4-bit kind, 4 bytes by the
    width N/8, and the index written carries [total_size] 0. *)
Lemma total_size_of_sub_byte_dtype :
  forallb (fun item => negb (is_lora item.1)) (named_parameters uint4_net)
  = true /\
  (sum_over spec_dtype_width (named_parameters uint4_net) == 4)%Q /\
  map (fun idx => metadata idx !! "total_size")
    (written_indexes
       (trace (save_hf_format (Bare uint4_net) sample_tokenizer
                 (sample_args 0 0) ""))) = [Some (PyInt 0)] /\
  map (fun idx => metadata idx !! "total_size")
    (written_indexes
       (trace (save_zero_three_model (Bare uint4_net) sample_tokenizer
                 (sample_args 0 3) ""))) = [Some (PyInt 0)] /\
  ~ (num_val (PyInt 0) == 4)%Q.
Proof.
  split_and!; [reflexivity | reflexivity | | | by intros H];
    vm_compute; reflexivity.
Qed.

(** C2 (amended).  For a model with no "lora" in its parameter names,
    every index file an export writes carries as [total_size] the sum
    over all parameters of element count times byte-width, where the
    byte-width is 1/8 for [torch.bool] and, for a dtype whose string
    form ends in the bit-width N, the whole bytes floor(N / 8); this is
    the sum with N/8 when every bit-width is a multiple of 8.  The
    index is written when [get_dtype_size] accepts every dtype
    ([save_zero_three_model]: on rank 0). *)
Theorem export_total_size_whole_bytes (m : model) (tok : tokenizer) (a : args)
    (sub_folder : string) :
  forallb (fun item => negb (is_lora item.1))
    (named_parameters (model_to_save m)) = true ->
  let l := named_parameters (model_to_save m) in
  let total := sum_over floor_dtype_width l in
  Forall (total_size_is total)
    (written_indexes (trace (save_hf_format m tok a sub_folder))) /\
  Forall (total_size_is total)
    (written_indexes (trace (save_zero_three_model m tok a sub_folder))) /\
  (forallb (fun item => byte_aligned (p_dtype item.2)) l = true ->
   (total == sum_over spec_dtype_width l)%Q) /\
  (forallb (fun item => is_sized item.2) l = true ->
   length (written_indexes (trace (save_hf_format m tok a sub_folder))) = 1%nat /\
   (global_rank a = 0 ->
    length (written_indexes (trace (save_zero_three_model m tok a sub_folder)))
    = 1%nat)).
Proof.
  intros Hno l total.
  assert (forall wm t,
             outcome (for_each index_body (∅, PyInt 0) l) = Ok (wm, t) ->
             total_size_is total
               {| weight_map := wm; metadata := {["total_size" := t]} |}) as HP.
  { intros wm t Hloop.
    pose proof (index_loop_ok_sized _ _ _ Hloop) as Hs.
    apply index_loop_ok in Hloop as [Hsum _].
    rewrite retained_no_lora in Hsum, Hs by done.
    exists t. split; [apply lookup_singleton_eq |].
    rewrite Hsum, sum_bytes_floor by done. apply Qplus_0_l. }
  destruct (written_index_origin m tok a sub_folder _ HP) as [Hhf Hz3].
  split_and!; [exact Hhf | exact Hz3 | |].
  - apply sum_over_aligned.
  - intros Hsized. subst total. unfold l in *. clear l.
    destruct (index_loop_defined (named_parameters (model_to_save m))
                (∅, PyInt 0)) as [[wm t] Hloop].
    { by rewrite retained_no_lora. }
    pose proof (gather_events_only true (named_parameters (model_to_save m)))
      as (Hgi & _).
    split.
    + by rewrite save_hf_format_run, Hloop.
    + intros Hrank0. z3_cases m tok a sub_folder; [| |done].
      * cbv zeta in Hrun. rewrite Hloop in Hrun.
        destruct Hrun as (osd & -> & _).
        unfold trace. cbn [snd].
        by rewrite !written_indexes_app, Hgi.
      * by rewrite Hrun, Hloop.
Qed.

Lemma export_total_size_whole_bytes_witness :
  let l := named_parameters (model_to_save (Bare plain_net)) in
  (sum_over floor_dtype_width l == 43 # 2)%Q /\
  (sum_over floor_dtype_width l == sum_over spec_dtype_width l)%Q /\
  Forall (total_size_is (sum_over floor_dtype_width l))
    (written_indexes
       (trace (save_zero_three_model (Bare plain_net) sample_tokenizer
                 (sample_args 0 3) "step1"))) /\
  length
    (written_indexes
       (trace (save_zero_three_model (Bare plain_net) sample_tokenizer
                 (sample_args 0 3) "step1"))) = 1%nat.
Proof.
  intros l.
  pose proof (export_total_size_whole_bytes (Bare plain_net) sample_tokenizer
                (sample_args 0 3) "step1" eq_refl)
    as (_ & Hz3 & Haligned & Hwritten).
  split_and!; [reflexivity | | exact Hz3 |].
  - apply Haligned. vm_compute. reflexivity.
  - apply (proj2 (Hwritten ltac:(vm_compute; reflexivity))). reflexivity.
Defined.

(** ** C4: the gathers of a partitioned export, aborted or not *)

(** On rank 0, when the dtype of some retained parameter is rejected,
    the gather loop raises at the first such parameter, after the
    gathers of the parameters up to and including it. *)
Lemma gather_loop_rank0_abort (a : args) (l : list (string * param)) :
  global_rank a = 0 ->
  forall (osd : gmap string tensor) (wm : gmap string string) (t : pynum),
    forallb (fun item => is_sized item.2) (retained l) = false ->
    exists before name p repr after,
      l = before ++ (name, p) :: after /\
      is_lora name = false /\
      get_dtype_size (p_dtype p) = Raise (invalid_dtype repr) /\
      forallb (fun item => is_sized item.2) (retained before) = true /\
      for_each (fun st '(k, v) => gather_step a st k v) (osd, wm, t) l =
      (Raise (invalid_dtype repr),
       gather_events (bool_decide (zero_stage a = 3)) (before ++ [(name, p)])).
Proof.
  intros Hrank. induction l as [|[k v] l IH]; intros osd wm t; [done |].
  cbn [for_each retained List.filter fst]. rewrite gather_step_rank0 by done.
  destruct (is_lora k) eqn:Hl.
  - rewrite index_body_lora by done. cbn [negb outcome fst]. intros Hs.
    destruct (IH osd wm t Hs)
      as (before & name & p & repr & after & -> & Hn & Hd & Hb & Heq).
    exists ((k, v) :: before), name, p, repr, after.
    split_and!; [done | done | done | |].
    + cbn [retained List.filter fst]. by rewrite Hl.
    + rewrite <- app_comm_cons.
      rewrite (gather_events_cons _ k v (before ++ [(name, p)])).
      run_monad. by rewrite Heq.
  - rewrite index_body_kept by done. cbn [negb forallb snd].
    unfold is_sized at 1.
    destruct (get_dtype_size (p_dtype v)) as [sz|e] eqn:Hsz.
    + cbn [outcome fst andb]. intros Hs.
      destruct (IH (<[k := host_copy v]> osd) (<[k := WEIGHTS_NAME]> wm)
                  (py_add t (py_mul (PyInt (p_numel v)) sz)) Hs)
        as (before & name & p & repr & after & -> & Hn & Hd & Hb & Heq).
      exists ((k, v) :: before), name, p, repr, after.
      split_and!; [done | done | done | |].
      * cbn [retained List.filter fst]. rewrite Hl. cbn [negb forallb snd].
        unfold is_sized at 1. by rewrite Hsz.
      * rewrite <- app_comm_cons.
        rewrite (gather_events_cons _ k v (before ++ [(name, p)])).
        run_monad. by rewrite Heq.
    + intros _. apply get_dtype_size_raises in Hsz as Hrepr.
      destruct Hrepr as (repr & Hd & ->).
      exists [], k, v, repr, l. by split_and!.
Qed.

(** C4 (amended).  In a partitioned export ([zero_stage = 3]) that does
    not abort -- on a rank other than 0 always, on rank 0 when every
    parameter without "lora" in its name has a dtype that
    [get_dtype_size] accepts -- the export returns and its gathers are
    one per parameter that carries a [ds_id], in the order of
    [named_parameters], whatever the rank.  When [get_dtype_size] raises
    on rank 0, the export raises there and the gathers of rank 0 are
    those of the parameters up to and including the first retained one
    whose dtype is rejected: rank 0 stops gathering at that
    parameter. *)
Theorem partitioned_export_gathers (m : model) (tok : tokenizer) (a : args)
    (sub_folder : string) :
  zero_stage a = 3 ->
  let l := named_parameters (model_to_save m) in
  let gathers_of (reached : list (string * param)) :=
    map (fun item => GatheredParameters (_z3_params_to_fetch [item.2]) true)
      (List.filter (fun item => has_ds_id item.2) reached) in
  (global_rank a <> 0 \/
   forallb (fun item => is_sized item.2) (retained l) = true ->
   outcome (save_zero_three_model m tok a sub_folder) = Ok tt /\
   List.filter is_gather (trace (save_zero_three_model m tok a sub_folder)) =
   gathers_of l) /\
  (global_rank a = 0 ->
   forallb (fun item => is_sized item.2) (retained l) = false ->
   exists before name p repr after,
     l = before ++ (name, p) :: after /\
     is_lora name = false /\
     get_dtype_size (p_dtype p) = Raise (invalid_dtype repr) /\
     forallb (fun item => is_sized item.2) (retained before) = true /\
     outcome (save_zero_three_model m tok a sub_folder) =
     Raise (invalid_dtype repr) /\
     List.filter is_gather (trace (save_zero_three_model m tok a sub_folder)) =
     gathers_of (before ++ [(name, p)])).
Proof.
  intros Hstage3 l gathers_of. subst gathers_of. unfold l. clear l. split.
  - intros Hok. rewrite <- gather_events_map.
    pose proof (gather_events_only true (named_parameters (model_to_save m)))
      as (_ & _ & _ & Hg).
    z3_cases m tok a sub_folder; [| done |].
    + destruct Hok as [Hne | Hsized]; [done |].
      destruct (index_loop_defined (named_parameters (model_to_save m))
                  (∅, PyInt 0) Hsized) as [[wm t] Hloop].
      cbv zeta in Hrun. rewrite Hloop in Hrun. destruct Hrun as (osd & -> & _).
      split; [done |]. unfold trace. cbn [snd].
      by rewrite !List.filter_app, Hg, app_nil_r.
    + rewrite Hrun. split; [done |]. unfold trace. cbn [snd].
      rewrite bool_decide_eq_true_2 by done.
      by rewrite List.filter_app, Hg.
  - intros Hrank0 Hs.
    destruct (gather_loop_rank0_abort a _ Hrank0 ∅ ∅ (PyInt 0) Hs)
      as (before & name & p & repr & after & Hl & Hn & Hd & Hb & Heq).
    exists before, name, p, repr, after.
    split_and!; [done | done | done | done | |];
      unfold save_zero_three_model;
      rewrite (bool_decide_eq_true_2 (global_rank a = 0)) by done;
      rewrite (bool_decide_eq_true_2 (zero_stage a = 3)) in * by done;
      rewrite Heq; run_monad; [done |].
    rewrite <- gather_events_map.
    pose proof (gather_events_only true (before ++ [(name, p)]))
      as (_ & _ & _ & Hg).
    unfold trace. cbn [snd]. exact Hg.
Qed.

Lemma partitioned_export_gathers_witness :
  (outcome
     (save_zero_three_model (Bare sharded_net) sample_tokenizer
        (sample_args 0 3) "") = Ok tt /\
   List.filter is_gather
     (trace
        (save_zero_three_model (Bare sharded_net) sample_tokenizer
           (sample_args 0 3) "")) =
   map (fun item => GatheredParameters (_z3_params_to_fetch [item.2]) true)
     (List.filter (fun item => has_ds_id item.2)
        (named_parameters (model_to_save (Bare sharded_net))))) /\
  (exists before name p repr after,
      named_parameters (model_to_save (Bare fp8_net)) =
      before ++ (name, p) :: after /\
      is_lora name = false /\
      get_dtype_size (p_dtype p) = Raise (invalid_dtype repr) /\
      forallb (fun item => is_sized item.2) (retained before) = true /\
      outcome
        (save_zero_three_model (Bare fp8_net) sample_tokenizer
           (sample_args 0 3) "") = Raise (invalid_dtype repr) /\
      List.filter is_gather
        (trace
           (save_zero_three_model (Bare fp8_net) sample_tokenizer
              (sample_args 0 3) "")) =
      map (fun item => GatheredParameters (_z3_params_to_fetch [item.2]) true)
        (List.filter (fun item => has_ds_id item.2) (before ++ [(name, p)]))).
Proof.
  split.
  - apply (proj1 (partitioned_export_gathers (Bare sharded_net)
                    sample_tokenizer (sample_args 0 3) "" eq_refl)).
    right. vm_compute. reflexivity.
  - apply (proj2 (partitioned_export_gathers (Bare fp8_net)
                    sample_tokenizer (sample_args 0 3) "" eq_refl)).
    + reflexivity.
    + vm_compute. reflexivity.
Defined.
